(** * watch-together: room registry, signaling router and lifecycle handlers

    Shallow embedding of [backend/main.py].  The module keeps one
    process-wide dictionary [rooms] and registers Socket.IO handlers that
    mutate it and emit events through the [sio] server object.

    - Python dictionaries are insertion-ordered; [rooms] and each room's
      ["participants"] are modelled as association lists with the
      dictionary operations [d_get], [d_set], [d_pop], [d_in].
    - JSON payloads received from clients are values of type [value];
      the [data] argument of a handler is a JSON object.
    - [sio.emit] and [sio.enter_room] belong to the python-socketio
      library.  An emit is recorded as an [emit] action in the output of
      the handler; the library's table of broadcast groups is part of the
      state so that an action can be resolved to the sessions it reaches.
    - Each handler is run to completion before the next one starts. *)

From Stdlib Require Import ZArith Ascii String.
From stdpp Require Import base decidable option list gmap strings sets.

Open Scope string_scope.
Open Scope list_scope.

(** ** JSON values and Python truthiness *)

#[warnings="-register-all"]
Inductive value : Type :=
| VNone
| VBool (b : bool)
| VInt (n : Z)
| VStr (s : string)
| VList (l : list value)
| VDict (kv : list (string * value)).

(** [bool(v)], as used by [if target:] *)
Definition truthy (v : value) : bool :=
  match v with
  | VNone => false
  | VBool b => b
  | VInt n => negb (n =? 0)%Z
  | VStr s => negb (String.eqb s "")
  | VList l => match l with [] => false | _ => true end
  | VDict kv => match kv with [] => false | _ => true end
  end.

(** [str.upper()].  Strings are byte strings and the map is the one
    [str.upper()] has on ASCII text: a-z go to A-Z, every other character
    stays.  On text outside ASCII Python's method can also change the
    number of characters; the properties below rely only on two facts that
    hold for [str.upper()] on all text: a generated room code is left as it
    is, and upper-casing twice is upper-casing once. *)
Definition upper_ascii (c : ascii) : ascii :=
  let n := nat_of_ascii c in
  if (97 <=? n)%nat && (n <=? 122)%nat then ascii_of_nat (n - 32) else c.

Fixpoint upper (s : string) : string :=
  match s with
  | EmptyString => EmptyString
  | String c s' => String (upper_ascii c) (upper s')
  end.

(** ** Insertion-ordered dictionaries *)

Definition dict (V : Type) : Type := list (string * V).

Section Dict.
Context {V : Type}.

Fixpoint d_get (k : string) (d : dict V) : option V :=
  match d with
  | [] => None
  | (k', v) :: d' => if String.eqb k k' then Some v else d_get k d'
  end.

Definition d_in (k : string) (d : dict V) : bool :=
  match d_get k d with Some _ => true | None => false end.

(** [d[k] = v]: an existing key keeps its position, a new key goes last *)
Fixpoint d_set (k : string) (v : V) (d : dict V) : dict V :=
  match d with
  | [] => [(k, v)]
  | (k', v') :: d' =>
      if String.eqb k k' then (k, v) :: d' else (k', v') :: d_set k v d'
  end.

(** [d.pop(k)]: the dictionary without the entry of [k] *)
Fixpoint d_pop (k : string) (d : dict V) : dict V :=
  match d with
  | [] => []
  | (k', v') :: d' =>
      if String.eqb k k' then d_pop k d' else (k', v') :: d_pop k d'
  end.

Definition d_keys (d : dict V) : list string := map fst d.
Definition d_values (d : dict V) : list V := map snd d.
End Dict.

(** [data.get(key, default)] and [data.get(key)] on a JSON object *)
Definition data_get (data : dict value) (key : string) (default : value) : value :=
  match d_get key data with Some v => v | None => default end.

Definition data_get1 (data : dict value) (key : string) : value :=
  data_get data key VNone.

(** ** Room metadata and server state *)

(** The clock reading of [asyncio.get_event_loop().time()]; it is stored
    and never inspected. *)
Definition time : Type := Z.

(** [{"sid": sid, "name": name, "role": role}] *)
Record pinfo : Type := PInfo {
  p_sid : string;
  p_name : value;
  p_role : value;
}.

(** [rooms[code]]: the key ["host_state"] is absent until a host sets it *)
Record meta : Type := Meta {
  host_sid : option string;
  participants : dict pinfo;
  created_at : time;
  m_host_state : option (dict value);
}.

Definition fresh_meta (now : time) : meta :=
  {| host_sid := None; participants := []; created_at := now;
     m_host_state := None |}.

(** One [sio.emit(event, payload, to=.. | room=.., skip_sid=..)].  The
    library treats [to] and [room] alike ([room = to or room]), so a single
    address is recorded. *)
Record emit : Type := Emit {
  e_event : string;
  e_payload : value;
  e_room : value;
  e_skip : option string;
}.

Record state : Type := State {
  rooms : dict meta;
  sessions : gset string;
  groups : gmap string (gset string);
}.

Definition init : state :=
  {| rooms := []; sessions := ∅; groups := ∅ |}.

Definition set_rooms (r : dict meta) (s : state) : state :=
  {| rooms := r; sessions := sessions s; groups := groups s |}.

(** ** Transport: broadcast groups of the Socket.IO server *)

Definition members (s : state) (g : string) : gset string :=
  default ∅ (groups s !! g).

(** Sessions addressed by [room]: a string names a group, [None] names
    every connected session; no group is ever keyed by another value. *)
Definition addressed (s : state) (room : value) : gset string :=
  match room with
  | VStr g => members s g
  | VNone => sessions s
  | _ => ∅
  end.

Definition recipients (s : state) (e : emit) : gset string :=
  match e_skip e with
  | Some sid => addressed s (e_room e) ∖ {[sid]}
  | None => addressed s (e_room e)
  end.

Definition group_add (sid g : string) (s : state) : state :=
  {| rooms := rooms s; sessions := sessions s;
     groups := <[g := {[sid]} ∪ members s g]> (groups s) |}.

(** what the server does for a new connection before calling [connect] *)
Definition transport_connect (sid : string) (s : state) : state :=
  let s' := group_add sid sid s in
  {| rooms := rooms s'; sessions := {[sid]} ∪ sessions s'; groups := groups s' |}.

(** what the server does after the [disconnect] handler has returned *)
Definition transport_disconnect (sid : string) (s : state) : state :=
  {| rooms := rooms s; sessions := sessions s ∖ {[sid]};
     groups := (λ g, g ∖ {[sid]}) <$> groups s |}.

(** ** Handler monad: state, emitted events, exceptions *)

Inductive exn : Type := AttributeError.

Inductive outcome (A : Type) : Type :=
| Return (a : A)
| Raise (e : exn).
Arguments Return {A} a.
Arguments Raise {A} e.

Definition M (A : Type) : Type := state → outcome A * state * list emit.

Definition ret {A} (a : A) : M A := λ s, (Return a, s, []).

Definition bind {A B} (m : M A) (k : A → M B) : M B := λ s,
  match m s with
  | (Return a, s1, out1) =>
      match k a s1 with (o, s2, out2) => (o, s2, out1 ++ out2) end
  | (Raise e, s1, out1) => (Raise e, s1, out1)
  end.

#[export] Instance M_ret : MRet M := @ret.
#[export] Instance M_bind : MBind M := λ A B k m, bind m k.

Definition get_rooms : M (dict meta) := λ s, (Return (rooms s), s, []).
Definition put_rooms (r : dict meta) : M unit := λ s, (Return tt, set_rooms r s, []).
Definition raise {A} (e : exn) : M A := λ s, (Raise e, s, []).
Definition sio_emit (ev : string) (payload : value) (room : value)
    (skip_sid : option string) : M unit :=
  λ s, (Return tt, s, [Emit ev payload room skip_sid]).
Definition sio_enter_room (sid room : string) : M unit :=
  λ s, (Return tt, group_add sid room s, []).

(** [v.upper()] for a value taken out of [data]: only [str] has the method *)
Definition py_upper (v : value) : M string :=
  match v with
  | VStr s => ret (upper s)
  | _ => raise AttributeError
  end.

(** ** Room codes *)

Definition ROOM_CODE_LEN : nat := 6.
Definition ALPHABET : list ascii :=
  list_ascii_of_string "ABCDEFGHIJKLMNOPQRSTUVWXYZ0123456789".

(** [random.choice(ALPHABET)]; [r] is the number supplied by the generator *)
Definition choice (r : nat) : ascii :=
  nth (r mod List.length ALPHABET) ALPHABET "A"%char.

(** [gen_room_code(n)]: [rnd] is the sequence of numbers the generator
    yields and [k] the position of the next one. *)
Definition gen_room_code (n : nat) (rnd : nat → nat) (k : nat) : string :=
  string_of_list_ascii (map (λ i, choice (rnd (k + i)%nat)) (seq 0 n)).

(** ** Room registry *)

Definition set_host (h : option string) (m : meta) : meta :=
  {| host_sid := h; participants := participants m;
     created_at := created_at m; m_host_state := m_host_state m |}.

Definition set_participants (p : dict pinfo) (m : meta) : meta :=
  {| host_sid := host_sid m; participants := p;
     created_at := created_at m; m_host_state := m_host_state m |}.

Definition set_host_state (d : dict value) (m : meta) : meta :=
  {| host_sid := host_sid m; participants := participants m;
     created_at := created_at m; m_host_state := Some d |}.

(** A handler holds [meta = rooms[room]] by reference: an assignment to a
    field of [meta] changes the entry stored in [rooms]. *)
Definition modify_room (room : string) (f : meta → meta) : M unit := λ s,
  match d_get room (rooms s) with
  | Some m => (Return tt, set_rooms (d_set room (f m) (rooms s)) s, [])
  | None => (Return tt, s, [])
  end.

(** The loop of [create_room]: at most [n] candidates are generated, the
    loop stops at the first one that is not a key of [rooms]; [code] is the
    candidate of the previous iteration. *)
Fixpoint pick_code (n : nat) (rnd : nat → nat) (k : nat) (rs : dict meta)
    (code : string) : string :=
  match n with
  | O => code
  | S n' =>
      let code := gen_room_code ROOM_CODE_LEN rnd k in
      if negb (d_in code rs) then code
      else pick_code n' rnd (k + ROOM_CODE_LEN) rs code
  end.

(** [POST /create-room]; the result is the ["room"] field of the reply *)
Definition create_room (rnd : nat → nat) (now : time) : M string :=
  rs ← get_rooms;
  let code := pick_code 5 rnd 0 rs "" in
  put_rooms (d_set code (fresh_meta now) rs);;
  ret code.

(** truth value of a session id or [None] *)
Definition opt_truthy (h : option string) : bool :=
  match h with
  | Some h => negb (String.eqb h "")
  | None => false
  end.

(** [bool(meta["host_sid"])] *)
Definition host_online (m : meta) : bool := opt_truthy (host_sid m).

(** [meta.get("host_sid")] where [meta] is the object stored at [rooms[room]] *)
Definition room_host (room : string) : M (option string) := λ s,
  (Return (d_get room (rooms s) ≫= host_sid), s, []).

Inductive room_view : Type :=
| NotFound
| Found (room : string) (ps : list pinfo) (online : bool).

(** [GET /room/{room_code}] *)
Definition get_room (room_code : string) (s : state) : room_view :=
  match d_get (upper room_code) (rooms s) with
  | None => NotFound
  | Some m => Found (upper room_code) (d_values (participants m)) (host_online m)
  end.

(** ** Socket.IO handlers *)

Definition connect (sid : string) : M unit := ret tt.

(** Body of the loop of [disconnect] for one entry of [rooms.items()] *)
Definition disconnect_room (sid code : string) (m : meta) : meta * list emit :=
  match d_get sid (participants m) with
  | Some p =>
      let m1 := set_participants (d_pop sid (participants m)) m in
      let left := Emit "user-left"
                    (VDict [("sid", VStr sid); ("name", p_name p)])
                    (VStr code) None in
      match host_sid m1 with
      | Some h =>
          if String.eqb h sid then
            (set_host None m1,
             [left; Emit "host-left" (VDict [("msg", VStr "host disconnected")])
                      (VStr code) None])
          else (m1, [left])
      | None => (m1, [left])
      end
  | None => (m, [])
  end.

Fixpoint disconnect_loop (sid : string) (items : list (string * meta))
    : dict meta * list emit :=
  match items with
  | [] => ([], [])
  | (code, m) :: rest =>
      let '(m', out) := disconnect_room sid code m in
      let '(rest', out') := disconnect_loop sid rest in
      ((code, m') :: rest', out ++ out')
  end.

Definition disconnect (sid : string) : M unit := λ s,
  let '(r, out) := disconnect_loop sid (rooms s) in
  (Return tt, set_rooms r s, out).

Definition create_room_client (sid : string) (data : dict value)
    (rnd : nat → nat) (now : time) : M unit :=
  let code := gen_room_code ROOM_CODE_LEN rnd 0 in
  rs ← get_rooms;
  put_rooms (d_set code (fresh_meta now) rs);;
  sio_emit "room-created" (VDict [("room", VStr code)]) (VStr sid) None.

(** [v == s] for a string literal [s] *)
Definition is_str (v : value) (s : string) : bool :=
  match v with VStr s' => String.eqb s' s | _ => false end.

Definition add_participant (sid : string) (name role : value) (m : meta) : meta :=
  set_participants (d_set sid (PInfo sid name role) (participants m)) m.

Definition user_joined (sid : string) (name role : value) : value :=
  VDict [("sid", VStr sid); ("name", name); ("role", role)].

Definition joined (room : string) (online : bool) : value :=
  VDict [("room", VStr room); ("meta", VDict [("host_online", VBool online)])].

Definition join_room (sid : string) (data : dict value) : M unit :=
  room ← py_upper (data_get data "room" (VStr ""));
  let name := data_get data "name" (VStr "Guest") in
  let role := data_get data "role" (VStr "viewer") in
  rs ← get_rooms;
  if negb (d_in room rs) then
    sio_emit "join-error" (VDict [("error", VStr "room-not-found")]) (VStr sid) None
  else
    modify_room room (add_participant sid name role);;
    sio_enter_room sid room;;
    if is_str role "host" then
      modify_room room (set_host (Some sid));;
      sio_emit "user-joined" (user_joined sid name role) (VStr room) None;;
      sio_emit "joined" (joined room true) (VStr sid) None
    else
      sio_emit "user-joined" (user_joined sid name role) (VStr room) None;;
      host ← room_host room;
      (if opt_truthy host then
         sio_emit "viewer-joined"
           (VDict [("viewer_sid", VStr sid); ("viewer_name", name)])
           (match host with Some h => VStr h | None => VNone end) None
       else ret tt);;
      host' ← room_host room;
      sio_emit "joined" (joined room (opt_truthy host')) (VStr sid) None.

Definition from_payload (sid key : string) (data : dict value) : value :=
  VDict [("from", VStr sid); (key, data_get1 data key)].

Definition webrtc_offer (sid : string) (data : dict value) : M unit :=
  room ← py_upper (data_get data "room" (VStr ""));
  let target := data_get1 data "to" in
  if truthy target then
    sio_emit "webrtc_offer" (from_payload sid "offer" data) target None
  else
    sio_emit "webrtc_offer" (from_payload sid "offer" data) (VStr room) (Some sid).

Definition webrtc_answer (sid : string) (data : dict value) : M unit :=
  let to := data_get1 data "to" in
  if truthy to then
    sio_emit "webrtc_answer" (from_payload sid "answer" data) to None
  else ret tt.

Definition webrtc_ice (sid : string) (data : dict value) : M unit :=
  let to := data_get1 data "to" in
  let room := data_get1 data "room" in
  if truthy to then
    sio_emit "webrtc_ice" (from_payload sid "candidate" data) to None
  else
    sio_emit "webrtc_ice" (from_payload sid "candidate" data) room (Some sid).

Definition chat_message (sid : string) (data : dict value) : M unit :=
  room ← py_upper (data_get data "room" (VStr ""));
  sio_emit "chat-message"
    (VDict [("from", VStr sid); ("name", data_get1 data "name");
            ("text", data_get1 data "text")])
    (VStr room) None.

Definition host_state (sid : string) (data : dict value) : M unit :=
  room ← py_upper (data_get data "room" (VStr ""));
  rs ← get_rooms;
  match d_get room rs with
  | Some m =>
      match host_sid m with
      | Some h =>
          if String.eqb h sid then
            modify_room room (set_host_state data);;
            sio_emit "host-state" (VDict data) (VStr room) None
          else ret tt
      | None => ret tt
      end
  | None => ret tt
  end.

(** ** The server as a transition system *)

Inductive event : Type :=
| Connect (sid : string)
| Disconnect (sid : string)
| HttpCreateRoom (rnd : nat → nat) (now : time)
| CreateRoomClient (sid : string) (data : dict value) (rnd : nat → nat) (now : time)
| JoinRoom (sid : string) (data : dict value)
| WebrtcOffer (sid : string) (data : dict value)
| WebrtcAnswer (sid : string) (data : dict value)
| WebrtcIce (sid : string) (data : dict value)
| ChatMessage (sid : string) (data : dict value)
| HostState (sid : string) (data : dict value).

Definition lift_transport (f : state → state) : M unit :=
  λ s, (Return tt, f s, []).

Definition handle (e : event) : M unit :=
  match e with
  | Connect sid => lift_transport (transport_connect sid);; connect sid
  | Disconnect sid => disconnect sid ;; lift_transport (transport_disconnect sid)
  | HttpCreateRoom rnd now => create_room rnd now ;; ret tt
  | CreateRoomClient sid data rnd now => create_room_client sid data rnd now
  | JoinRoom sid data => join_room sid data
  | WebrtcOffer sid data => webrtc_offer sid data
  | WebrtcAnswer sid data => webrtc_answer sid data
  | WebrtcIce sid data => webrtc_ice sid data
  | ChatMessage sid data => chat_message sid data
  | HostState sid data => host_state sid data
  end.

(** state after a handler, and what it emitted *)
Definition st_of {A} (r : outcome A * state * list emit) : state := r.1.2.
Definition out_of {A} (r : outcome A * state * list emit) : list emit := r.2.
Definition val_of {A} (r : outcome A * state * list emit) : outcome A := r.1.1.

Definition exec (e : event) (s : state) : state := st_of (handle e s).

Definition run (evs : list event) (s : state) : state :=
  fold_left (λ s e, exec e s) evs s.

Inductive reachable : state → Prop :=
| reach_init : reachable init
| reach_step e s : reachable s → reachable (exec e s).

(** events of one kind sent to one room *)
Definition is_event (ev room : string) (e : emit) : bool :=
  String.eqb (e_event e) ev && is_str (e_room e) room.

Definition count_event (ev room : string) (out : list emit) : nat :=
  List.length (List.filter (is_event ev room) out).

(** sessions reached by at least one of the emitted events *)
Definition receivers (s : state) (out : list emit) : gset string :=
  ⋃ (recipients s <$> out).

(** the state after a successful join *)
Definition joined_state (sid room : string) (m' : meta) (s : state) : state :=
  {| rooms := d_set room m' (rooms s); sessions := sessions s;
     groups := <[room := {[sid]} ∪ members s room]> (groups s) |}.

(** ** Invariant of the registry and the transport *)

Record inv (s : state) : Prop := {
  inv_nodup : NoDup (d_keys (rooms s));
  inv_codes : ∀ c, d_in c (rooms s) = true → upper c = c;
  inv_host : ∀ c m h,
    d_get c (rooms s) = Some m → host_sid m = Some h →
    d_in h (participants m) = true;
  inv_part : ∀ c m p,
    d_get c (rooms s) = Some m → d_in p (participants m) = true →
    p ∈ members s c;
  inv_group : ∀ g x, x ∈ members s g → g = x ∨ d_in g (rooms s) = true;
  inv_self : ∀ x, x ∈ sessions s → x ∈ members s x;
}.

(** ** A concrete run: host H and viewer V in room ABC123 *)

Definition demo_rnd (i : nat) : nat := nth i [0; 1; 2; 27; 28; 29]%nat 0%nat.

Definition demo_events : list event :=
  [Connect "H"; Connect "V"; HttpCreateRoom demo_rnd 7%Z;
   JoinRoom "H" [("room", VStr "abc123"); ("name", VStr "Hank"); ("role", VStr "host")];
   JoinRoom "V" [("room", VStr "ABC123"); ("name", VStr "Vera")]].

Definition demo : state := run demo_events init.

Definition demo_meta : meta :=
  {| host_sid := Some "H";
     participants :=
       [("H", PInfo "H" (VStr "Hank") (VStr "host"));
        ("V", PInfo "V" (VStr "Vera") (VStr "viewer"))];
     created_at := 7%Z;
     m_host_state := None |}.

(** ** Notions used by the further properties *)

(** a string of [ROOM_CODE_LEN] characters of [ALPHABET] *)
Definition is_room_code (c : string) : Prop :=
  String.length c = ROOM_CODE_LEN ∧
  Forall (λ a, a ∈ ALPHABET) (list_ascii_of_string c).

(** what a successful [join_room] makes of the metadata of the room *)
Definition join_meta (sid : string) (data : dict value) (m : meta) : meta :=
  let name := data_get data "name" (VStr "Guest") in
  let role := data_get data "role" (VStr "viewer") in
  let m1 := add_participant sid name role m in
  if is_str role "host" then set_host (Some sid) m1 else m1.

Definition is_create (e : event) : bool :=
  match e with
  | HttpCreateRoom _ _ | CreateRoomClient _ _ _ _ => true
  | _ => false
  end.

(** The ways one event changes the entry of one room code: not at all, a
    fresh entry under a generated code, the loop body of [disconnect], a
    successful join, an accepted host status. *)
Inductive room_step (e : event) (c : string) : option meta → option meta → Prop :=
| step_same o : room_step e c o o
| step_create o now rnd k :
    is_create e = true → c = gen_room_code ROOM_CODE_LEN rnd k →
    room_step e c o (Some (fresh_meta now))
| step_disconnect sid m :
    e = Disconnect sid →
    room_step e c (Some m) (Some (disconnect_room sid c m).1)
| step_join sid data m :
    e = JoinRoom sid data →
    room_step e c (Some m) (Some (join_meta sid data m))
| step_host_state sid data m :
    e = HostState sid data → host_sid m = Some sid →
    room_step e c (Some m) (Some (set_host_state data m)).

(** no session has two entries in the participants of a room, and the
    ["sid"] field of an entry is the key it is stored under *)
Definition well_keyed (m : meta) : Prop :=
  NoDup (d_keys (participants m)) ∧
  ∀ p i, d_get p (participants m) = Some i → p_sid i = p.

(** a second room, DEF456, which V has joined as well *)
Definition demo2_rnd (i : nat) : nat := nth i [3; 4; 5; 30; 31; 32]%nat 0%nat.

Definition demo2 : state :=
  run [HttpCreateRoom demo2_rnd 8%Z; JoinRoom "V" [("room", VStr "def456")]] demo.

(** ** Proof automation for running a handler *)

Ltac run_handler :=
  unfold exec, st_of, out_of, val_of, handle, connect, create_room,
    create_room_client, join_room, webrtc_offer, webrtc_answer, webrtc_ice,
    chat_message, host_state, disconnect, py_upper, lift_transport;
  unfold mbind, mret, M_bind, M_ret, bind, ret, raise, get_rooms, put_rooms,
    sio_emit, sio_enter_room, modify_room, room_host;
  simpl.

(** * Properties *)

(** ** Dictionary operations *)

Section DictFacts.
Context {V : Type}.
Implicit Types (d : dict V) (k : string) (v : V).

Lemma d_in_get k d : d_in k d = true ↔ is_Some (d_get k d).
Proof.
  unfold d_in. destruct (d_get k d); split; intros H; try done; eauto.
Qed.

Lemma d_in_false k d : d_in k d = false ↔ d_get k d = None.
Proof. unfold d_in. destruct (d_get k d); split; intros H; done. Qed.

Lemma d_in_keys k d : d_in k d = true ↔ k ∈ d_keys d.
Proof.
  unfold d_in, d_keys. induction d as [|[k' v'] d IH]; simpl.
  - split; [done | intros H; inversion H].
  - destruct (String.eqb_spec k k') as [->|Hne].
    + split; [intros _; left | done].
    + rewrite IH. split; [by right | intros H].
      inversion H; subst; [done | assumption].
Qed.

Lemma d_get_set_eq k v d : d_get k (d_set k v d) = Some v.
Proof.
  induction d as [|[k' v'] d IH]; simpl.
  - by rewrite String.eqb_refl.
  - destruct (String.eqb_spec k k') as [->|Hne]; simpl.
    + by rewrite String.eqb_refl.
    + destruct (String.eqb_spec k k'); [done | apply IH].
Qed.

Lemma d_get_set_ne k k' v d : k ≠ k' → d_get k' (d_set k v d) = d_get k' d.
Proof.
  intros Hne. induction d as [|[k0 v0] d IH]; simpl.
  - destruct (String.eqb_spec k' k); [by subst | done].
  - destruct (String.eqb_spec k k0) as [->|Hk]; simpl.
    + destruct (String.eqb_spec k' k0); [by subst | done].
    + destruct (String.eqb_spec k' k0); [done | apply IH].
Qed.

Lemma d_get_set k k' v d :
  d_get k' (d_set k v d) = if decide (k = k') then Some v else d_get k' d.
Proof.
  case_decide; [subst; apply d_get_set_eq | by apply d_get_set_ne].
Qed.

Lemma d_set_set k v v' d : d_set k v' (d_set k v d) = d_set k v' d.
Proof.
  induction d as [|[k0 v0] d IH]; simpl.
  - by rewrite String.eqb_refl.
  - destruct (String.eqb_spec k k0) as [->|Hk]; simpl.
    + by rewrite String.eqb_refl.
    + destruct (String.eqb_spec k k0); [done | by rewrite IH].
Qed.

Lemma d_keys_set k v d :
  d_keys (d_set k v d) = if d_in k d then d_keys d else d_keys d ++ [k].
Proof.
  unfold d_in, d_keys. induction d as [|[k0 v0] d IH]; simpl; [done|].
  destruct (String.eqb_spec k k0) as [->|Hk]; simpl; [done|].
  rewrite IH. by destruct (d_get k d).
Qed.

Lemma d_keys_set_incl k v d : d_keys d ⊆ d_keys (d_set k v d).
Proof.
  rewrite d_keys_set. destruct (d_in k d); [done|].
  intros x Hx. apply elem_of_app. by left.
Qed.

Lemma d_in_set_mono k k' v d : d_in k' d = true → d_in k' (d_set k v d) = true.
Proof. rewrite !d_in_keys. apply d_keys_set_incl. Qed.

Lemma d_in_set k k' v d :
  d_in k' (d_set k v d) = true ↔ k = k' ∨ d_in k' d = true.
Proof.
  rewrite !d_in_get, d_get_set. case_decide as Hk.
  - split; [by left | eauto].
  - split; [by right | by intros [?|?]].
Qed.

Lemma NoDup_d_keys_set k v d : NoDup (d_keys d) → NoDup (d_keys (d_set k v d)).
Proof.
  intros Hd. rewrite d_keys_set. destruct (d_in k d) eqn:Hin; [done|].
  apply NoDup_app. split_and!; [done | | apply NoDup_singleton].
  intros x Hx ->%list_elem_of_singleton.
  apply d_in_keys in Hx. congruence.
Qed.

Lemma d_get_pop_eq k d : d_get k (d_pop k d) = None.
Proof.
  induction d as [|[k0 v0] d IH]; simpl; [done|].
  destruct (String.eqb_spec k k0) as [->|Hk]; simpl; [done|].
  by destruct (String.eqb_spec k k0).
Qed.

Lemma d_get_pop_ne k k' d : k ≠ k' → d_get k' (d_pop k d) = d_get k' d.
Proof.
  intros Hne. induction d as [|[k0 v0] d IH]; simpl; [done|].
  destruct (String.eqb_spec k k0) as [->|Hk]; simpl.
  - destruct (String.eqb_spec k' k0); [by subst | done].
  - destruct (String.eqb_spec k' k0); [done | apply IH].
Qed.

Lemma d_in_pop k k' d :
  d_in k' (d_pop k d) = true ↔ k ≠ k' ∧ d_in k' d = true.
Proof.
  rewrite !d_in_get. destruct (decide (k = k')) as [->|Hne].
  - rewrite d_get_pop_eq. split; [by intros [? ?] | by intros [? _]].
  - rewrite d_get_pop_ne by done. split; [done | by intros [_ ?]].
Qed.
End DictFacts.

(** ** Room codes are upper-case *)

Lemma upper_ascii_ALPHABET : Forall (λ c, upper_ascii c = c) ALPHABET.
Proof. repeat constructor. Qed.

Lemma upper_ascii_choice r : upper_ascii (choice r) = choice r.
Proof.
  unfold choice.
  assert (Hlt : (r mod List.length ALPHABET < List.length ALPHABET)%nat)
    by (apply Nat.mod_upper_bound; discriminate).
  pose proof upper_ascii_ALPHABET as HF. rewrite Forall_forall in HF.
  apply HF, list_elem_of_In, nth_In, Hlt.
Qed.

Lemma upper_string_of_list l :
  Forall (λ c, upper_ascii c = c) l →
  upper (string_of_list_ascii l) = string_of_list_ascii l.
Proof. induction 1 as [|c l Hc _ IH]; simpl; [done | by rewrite Hc, IH]. Qed.

Lemma upper_gen_room_code n rnd k :
  upper (gen_room_code n rnd k) = gen_room_code n rnd k.
Proof.
  unfold gen_room_code. apply upper_string_of_list.
  apply Forall_map, Forall_forall. intros i _. apply upper_ascii_choice.
Qed.

(** The loop returns one of the candidates it generated: the one of
    iteration [i], every earlier one being taken, and the loop only ends
    on a taken candidate when the budget is used up. *)
Lemma pick_code_spec n rnd k rs code0 :
  ∃ i, (i ≤ n - 1)%nat ∧
    (n ≠ 0%nat → pick_code n rnd k rs code0
                 = gen_room_code ROOM_CODE_LEN rnd (k + i * ROOM_CODE_LEN)) ∧
    (∀ j, (j < i)%nat →
       d_in (gen_room_code ROOM_CODE_LEN rnd (k + j * ROOM_CODE_LEN)) rs = true) ∧
    ((i < n - 1)%nat →
       d_in (gen_room_code ROOM_CODE_LEN rnd (k + i * ROOM_CODE_LEN)) rs = false).
Proof.
  revert k code0. induction n as [|n IH]; intros k code0.
  - exists 0%nat. split_and!; [lia | done | lia | lia].
  - simpl pick_code.
    destruct (d_in (gen_room_code ROOM_CODE_LEN rnd k) rs) eqn:Hin; simpl.
    + destruct n as [|n].
      * exists 0%nat. simpl. rewrite Nat.add_0_r. split_and!; [lia | done | lia | lia].
      * destruct (IH (k + ROOM_CODE_LEN)%nat (gen_room_code ROOM_CODE_LEN rnd k))
          as (i & Hi & Heq & Hbefore & Hfree).
        exists (S i). split_and!.
        -- lia.
        -- intros _. rewrite Heq by done. f_equal. lia.
        -- intros [|j] Hj; [by rewrite Nat.add_0_r |].
           replace (k + S j * ROOM_CODE_LEN)%nat
             with (k + ROOM_CODE_LEN + j * ROOM_CODE_LEN)%nat by lia.
           apply Hbefore. lia.
        -- intros Hlt.
           replace (k + S i * ROOM_CODE_LEN)%nat
             with (k + ROOM_CODE_LEN + i * ROOM_CODE_LEN)%nat by lia.
           apply Hfree. lia.
    + exists 0%nat. rewrite Nat.add_0_r. split_and!; [lia | done | lia | done].
Qed.

Lemma upper_pick_code n rnd k rs code0 :
  n ≠ 0%nat → upper (pick_code n rnd k rs code0) = pick_code n rnd k rs code0.
Proof.
  intros Hn. destruct (pick_code_spec n rnd k rs code0) as (i & _ & Heq & _).
  rewrite Heq by done. apply upper_gen_room_code.
Qed.

(** ** Transport facts *)

Lemma members_group_add sid g s g' :
  members (group_add sid g s) g'
  = if decide (g = g') then {[sid]} ∪ members s g else members s g'.
Proof.
  unfold members at 1. simpl. rewrite lookup_insert.
  by case_decide.
Qed.

Lemma members_transport_disconnect sid s g :
  members (transport_disconnect sid s) g = members s g ∖ {[sid]}.
Proof.
  unfold members. simpl. rewrite lookup_fmap.
  destruct (groups s !! g); simpl; [done | by rewrite difference_disjoint_L].
Qed.

Lemma members_set_rooms r s g : members (set_rooms r s) g = members s g.
Proof. done. Qed.

(** ** The invariant holds initially and is preserved *)

Lemma inv_init : inv init.
Proof.
  split; simpl.
  - constructor.
  - done.
  - done.
  - done.
  - intros g x. unfold members. simpl. rewrite lookup_empty. simpl.
    by intros ?%not_elem_of_empty.
  - by intros x ?%not_elem_of_empty.
Qed.

(** a room is (re)created with the fresh metadata *)
Lemma inv_create s code now :
  inv s → upper code = code →
  inv (set_rooms (d_set code (fresh_meta now) (rooms s)) s).
Proof.
  intros [Hnd Hcodes Hhost Hpart Hgroup Hself] Hup. split; simpl.
  - by apply NoDup_d_keys_set.
  - intros c [->|Hc]%d_in_set; [done | by apply Hcodes].
  - intros c m h. rewrite d_get_set. case_decide.
    + intros [= <-]. done.
    + apply Hhost.
  - intros c m p. rewrite d_get_set, members_set_rooms. case_decide.
    + intros [= <-]. done.
    + apply Hpart.
  - intros g x Hx. destruct (Hgroup g x Hx) as [->|Hg]; [by left | right].
    by apply d_in_set_mono.
  - done.
Qed.

(** a room's metadata is replaced by one with the same host and participants *)
Lemma inv_same_members s room m m' :
  inv s → d_get room (rooms s) = Some m →
  host_sid m' = host_sid m → participants m' = participants m →
  inv (set_rooms (d_set room m' (rooms s)) s).
Proof.
  intros [Hnd Hcodes Hhost Hpart Hgroup Hself] Hm Hh Hp. split; simpl.
  - by apply NoDup_d_keys_set.
  - intros c [->|Hc]%d_in_set; [| by apply Hcodes].
    apply Hcodes, d_in_get. eauto.
  - intros c m0 h. rewrite d_get_set. case_decide.
    + intros [= <-]. rewrite Hh, Hp. subst c. by apply (Hhost room m).
    + apply Hhost.
  - intros c m0 p. rewrite d_get_set, members_set_rooms. case_decide.
    + intros [= <-]. rewrite Hp. subst c. by apply (Hpart room m).
    + apply Hpart.
  - intros g x Hx. destruct (Hgroup g x Hx) as [->|Hg]; [by left | right].
    by apply d_in_set_mono.
  - done.
Qed.

(** a session is added to a room's participants and to its group; the host
    is kept or becomes the new participant *)
Lemma inv_join s s' room m m' sid info :
  inv s → d_get room (rooms s) = Some m →
  participants m' = d_set sid info (participants m) →
  host_sid m' = host_sid m ∨ host_sid m' = Some sid →
  rooms s' = d_set room m' (rooms s) →
  sessions s' = sessions s →
  groups s' = <[room := {[sid]} ∪ members s room]> (groups s) →
  inv s'.
Proof.
  intros [Hnd Hcodes Hhost Hpart Hgroup Hself] Hm Hp Hh Hr Hs Hg.
  assert (Hmem : ∀ g, members s' g
            = if decide (room = g) then {[sid]} ∪ members s room else members s g).
  { intros g. unfold members at 1. rewrite Hg, lookup_insert. by case_decide. }
  assert (Hroom : d_in room (rooms s) = true) by (apply d_in_get; eauto).
  split.
  - rewrite Hr. by apply NoDup_d_keys_set.
  - rewrite Hr. intros c [->|Hc]%d_in_set; by apply Hcodes.
  - rewrite Hr. intros c m0 h. rewrite d_get_set. case_decide.
    + intros [= <-] Hh0. rewrite Hp. apply d_in_set.
      destruct Hh as [Hh|Hh]; rewrite Hh in Hh0.
      * right. subst c. by apply (Hhost room m).
      * left. congruence.
    + apply Hhost.
  - rewrite Hr. intros c m0 p. rewrite d_get_set, Hmem. case_decide.
    + intros [= <-]. rewrite Hp.
      intros [->|Hin]%d_in_set; [by apply elem_of_union_l, elem_of_singleton|].
      apply elem_of_union_r. by apply (Hpart room m).
    + apply Hpart.
  - rewrite Hr. intros g x. rewrite Hmem. case_decide.
    + subst g. intros _. right. by apply d_in_set_mono.
    + intros Hx. destruct (Hgroup g x Hx) as [->|Hin]; [by left | right].
      by apply d_in_set_mono.
  - rewrite Hs. intros x Hx. rewrite Hmem. case_decide.
    + subst x. apply elem_of_union_r. by apply Hself.
    + by apply Hself.
Qed.

Lemma inv_connect s sid : inv s → inv (transport_connect sid s).
Proof.
  intros [Hnd Hcodes Hhost Hpart Hgroup Hself].
  assert (Hmem : ∀ g, members (transport_connect sid s) g
            = if decide (sid = g) then {[sid]} ∪ members s sid else members s g).
  { intros g. apply (members_group_add sid sid s g). }
  split; simpl; try done.
  - intros c m p Hc Hp. rewrite Hmem. case_decide.
    + subst c. apply elem_of_union_r. by apply (Hpart sid m).
    + by apply (Hpart c m).
  - intros g x. rewrite Hmem. case_decide.
    + subst g. intros [->%elem_of_singleton|Hx]%elem_of_union; [by left|].
      by apply Hgroup.
    + apply Hgroup.
  - intros x Hx. rewrite Hmem. case_decide.
    + subst x. apply elem_of_union_l. by apply elem_of_singleton.
    + apply Hself. apply elem_of_union in Hx as [Hx%elem_of_singleton|Hx]; done.
Qed.

(** ** The disconnect loop *)

Lemma d_pop_absent {V} k (d : dict V) : d_get k d = None → d_pop k d = d.
Proof.
  induction d as [|[k0 v0] d IH]; simpl; [done|].
  destruct (String.eqb_spec k k0); [done | intros H; by rewrite IH].
Qed.

Lemma disconnect_room_participants sid code m :
  participants (disconnect_room sid code m).1 = d_pop sid (participants m).
Proof.
  unfold disconnect_room. destruct (d_get sid (participants m)) eqn:Hp; simpl.
  - destruct (host_sid m) as [h|]; simpl; [|done]. by destruct (String.eqb h sid).
  - by rewrite d_pop_absent.
Qed.

Lemma disconnect_room_host sid code m :
  host_sid (disconnect_room sid code m).1
  = if d_in sid (participants m) && bool_decide (host_sid m = Some sid)
    then None else host_sid m.
Proof.
  unfold disconnect_room, d_in.
  destruct (d_get sid (participants m)) eqn:Hp; simpl; [|done].
  destruct (host_sid m) as [h|] eqn:Hh; simpl; [|done].
  destruct (String.eqb_spec h sid) as [->|Hne]; simpl.
  - by rewrite bool_decide_eq_true_2.
  - rewrite Hh. rewrite bool_decide_eq_false_2; [done | congruence].
Qed.

Lemma disconnect_room_fields sid code m :
  created_at (disconnect_room sid code m).1 = created_at m ∧
  m_host_state (disconnect_room sid code m).1 = m_host_state m.
Proof.
  unfold disconnect_room. destruct (d_get sid (participants m)); simpl; [|done].
  destruct (host_sid m) as [h|]; simpl; [|done]. by destruct (String.eqb h sid).
Qed.

Lemma disconnect_room_address sid code m e :
  e ∈ (disconnect_room sid code m).2 → e_room e = VStr code ∧ e_skip e = None.
Proof.
  unfold disconnect_room. destruct (d_get sid (participants m)); simpl.
  - destruct (host_sid m) as [h|]; simpl;
      [destruct (String.eqb h sid); simpl|];
      rewrite ?elem_of_cons, ?elem_of_nil; intros H;
      repeat (destruct H as [->|H]; [done|]); done.
  - by intros ?%elem_of_nil.
Qed.

Lemma disconnect_loop_keys sid rs :
  d_keys (disconnect_loop sid rs).1 = d_keys rs.
Proof.
  induction rs as [|[c m] rs IH]; simpl; [done|].
  destruct (disconnect_room sid c m) as [m' out].
  destruct (disconnect_loop sid rs) as [rs' out']. simpl in *. by rewrite IH.
Qed.

Lemma disconnect_loop_get sid rs c :
  d_get c (disconnect_loop sid rs).1
  = (λ m, (disconnect_room sid c m).1) <$> d_get c rs.
Proof.
  induction rs as [|[c0 m] rs IH]; simpl; [done|].
  destruct (disconnect_room sid c0 m) as [m' out] eqn:Hroom.
  destruct (disconnect_loop sid rs) as [rs' out']. simpl in *.
  destruct (String.eqb_spec c c0) as [->|Hne]; [|done].
  simpl. by rewrite Hroom.
Qed.

Lemma disconnect_loop_in sid rs c :
  d_in c (disconnect_loop sid rs).1 = d_in c rs.
Proof. unfold d_in. rewrite disconnect_loop_get. by destruct (d_get c rs). Qed.

Lemma count_event_app ev room out1 out2 :
  count_event ev room (out1 ++ out2)
  = (count_event ev room out1 + count_event ev room out2)%nat.
Proof. unfold count_event. by rewrite List.filter_app, length_app. Qed.

Lemma count_event_other ev room out :
  (∀ e, e ∈ out → e_room e ≠ VStr room) → count_event ev room out = 0%nat.
Proof.
  unfold count_event. induction out as [|e out IH]; intros H; simpl; [done|].
  assert (He : is_event ev room e = false).
  { unfold is_event. apply andb_false_iff. right.
    specialize (H e (list_elem_of_here _ _)).
    destruct (e_room e) as [| | |s| |]; simpl; try done.
    destruct (String.eqb_spec s room); congruence. }
  rewrite He. apply IH. intros e' He'. apply H. by right.
Qed.

Lemma disconnect_loop_count_absent sid rs ev room :
  room ∉ d_keys rs → count_event ev room (disconnect_loop sid rs).2 = 0%nat.
Proof.
  induction rs as [|[c m] rs IH]; simpl; [done|].
  intros [Hne Hnin]%not_elem_of_cons.
  destruct (disconnect_room sid c m) as [m' out] eqn:Hroom.
  destruct (disconnect_loop sid rs) as [rs' out']. simpl in *.
  rewrite count_event_app, IH by done.
  rewrite count_event_other; [done|].
  intros e He. replace out with (disconnect_room sid c m).2 in He by by rewrite Hroom.
  apply disconnect_room_address in He as [-> _]. congruence.
Qed.

Lemma disconnect_loop_count sid rs ev room m :
  NoDup (d_keys rs) → d_get room rs = Some m →
  count_event ev room (disconnect_loop sid rs).2
  = count_event ev room (disconnect_room sid room m).2.
Proof.
  induction rs as [|[c m0] rs IH]; simpl; [done|].
  intros [Hnin Hnd]%NoDup_cons.
  pose proof (disconnect_loop_count_absent sid rs ev) as Habs.
  destruct (disconnect_room sid c m0) as [m' out] eqn:Hroom.
  destruct (disconnect_loop sid rs) as [rs' out']. simpl in *.
  rewrite count_event_app.
  destruct (String.eqb_spec room c) as [->|Hne].
  - intros [= ->]. rewrite Hroom. simpl. rewrite Habs by done. lia.
  - intros Hm. rewrite IH by done. rewrite count_event_other; [done|].
    intros e He. replace out with (disconnect_room sid c m0).2 in He by by rewrite Hroom.
    apply disconnect_room_address in He as [-> _]. congruence.
Qed.

Lemma inv_disconnect s sid :
  inv s →
  inv (transport_disconnect sid (set_rooms (disconnect_loop sid (rooms s)).1 s)).
Proof.
  intros [Hnd Hcodes Hhost Hpart Hgroup Hself]. split; simpl.
  - by rewrite disconnect_loop_keys.
  - intros c. rewrite disconnect_loop_in. apply Hcodes.
  - intros c m' h. rewrite disconnect_loop_get.
    destruct (d_get c (rooms s)) as [m|] eqn:Hm; simpl; [|done].
    intros [= <-]. rewrite disconnect_room_host, disconnect_room_participants.
    destruct (d_in sid (participants m)) eqn:Hin; simpl.
    + case_bool_decide as Hh; [done|]. intros Hh'.
      apply d_in_pop. split; [congruence | by apply (Hhost c m)].
    + intros Hh'. apply d_in_pop. split; [| by apply (Hhost c m)].
      intros ->. apply (Hhost c m) in Hh'; [congruence | done].
  - intros c m' p. rewrite disconnect_loop_get, members_transport_disconnect.
    destruct (d_get c (rooms s)) as [m|] eqn:Hm; simpl; [|done].
    intros [= <-]. rewrite disconnect_room_participants.
    intros [Hne Hin]%d_in_pop. apply elem_of_difference. split.
    + by apply (Hpart c m).
    + intros ->%elem_of_singleton. done.
  - intros g x. rewrite members_transport_disconnect, disconnect_loop_in.
    intros [Hx _]%elem_of_difference. by apply Hgroup.
  - intros x [Hx Hne]%elem_of_difference.
    rewrite members_transport_disconnect. apply elem_of_difference.
    split; [by apply Hself | done].
Qed.

(** ** Running the handlers *)

Lemma disconnect_run sid s :
  disconnect sid s
  = (Return tt, set_rooms (disconnect_loop sid (rooms s)).1 s,
     (disconnect_loop sid (rooms s)).2).
Proof. run_handler. by destruct (disconnect_loop sid (rooms s)). Qed.

Lemma handle_disconnect_run sid s :
  handle (Disconnect sid) s
  = (Return tt,
     transport_disconnect sid (set_rooms (disconnect_loop sid (rooms s)).1 s),
     (disconnect_loop sid (rooms s)).2).
Proof.
  run_handler. destruct (disconnect_loop sid (rooms s)). simpl.
  by rewrite app_nil_r.
Qed.

Lemma create_room_run rnd now s :
  create_room rnd now s
  = (Return (pick_code 5 rnd 0 (rooms s) ""),
     set_rooms (d_set (pick_code 5 rnd 0 (rooms s) "") (fresh_meta now) (rooms s)) s,
     []).
Proof. done. Qed.

Lemma create_room_client_run sid data rnd now s :
  create_room_client sid data rnd now s
  = (Return tt,
     set_rooms (d_set (gen_room_code ROOM_CODE_LEN rnd 0) (fresh_meta now) (rooms s)) s,
     [Emit "room-created" (VDict [("room", VStr (gen_room_code ROOM_CODE_LEN rnd 0))])
        (VStr sid) None]).
Proof. done. Qed.

(** [join_room] on a request whose room field is not a string *)
Lemma join_room_raise sid data s :
  (∀ r, data_get data "room" (VStr "") ≠ VStr r) →
  join_room sid data s = (Raise AttributeError, s, []).
Proof.
  intros Hr. run_handler.
  destruct (data_get data "room" (VStr "")); try done. by destruct (Hr s0).
Qed.

Lemma join_room_unknown sid data r s :
  data_get data "room" (VStr "") = VStr r →
  d_get (upper r) (rooms s) = None →
  join_room sid data s
  = (Return tt, s,
     [Emit "join-error" (VDict [("error", VStr "room-not-found")]) (VStr sid) None]).
Proof.
  intros Hr Hm. run_handler. rewrite Hr. simpl.
  apply d_in_false in Hm. by rewrite Hm.
Qed.

Lemma join_room_host sid data r m s :
  data_get data "room" (VStr "") = VStr r →
  d_get (upper r) (rooms s) = Some m →
  is_str (data_get data "role" (VStr "viewer")) "host" = true →
  let name := data_get data "name" (VStr "Guest") in
  let role := data_get data "role" (VStr "viewer") in
  join_room sid data s
  = (Return tt,
     joined_state sid (upper r) (set_host (Some sid) (add_participant sid name role m)) s,
     [Emit "user-joined" (user_joined sid name role) (VStr (upper r)) None;
      Emit "joined" (joined (upper r) true) (VStr sid) None]).
Proof.
  intros Hr Hm Hrole name role. subst name role. run_handler. rewrite Hr. simpl.
  assert (Hin : d_in (upper r) (rooms s) = true) by (apply d_in_get; eauto).
  rewrite Hin. simpl. rewrite Hm. simpl. rewrite Hrole. simpl.
  rewrite d_get_set_eq. simpl. unfold joined_state. by rewrite d_set_set.
Qed.

Lemma join_room_viewer sid data r m s :
  data_get data "room" (VStr "") = VStr r →
  d_get (upper r) (rooms s) = Some m →
  is_str (data_get data "role" (VStr "viewer")) "host" = false →
  let name := data_get data "name" (VStr "Guest") in
  let role := data_get data "role" (VStr "viewer") in
  join_room sid data s
  = (Return tt,
     joined_state sid (upper r) (add_participant sid name role m) s,
     Emit "user-joined" (user_joined sid name role) (VStr (upper r)) None ::
     (if host_online m
      then [Emit "viewer-joined"
              (VDict [("viewer_sid", VStr sid); ("viewer_name", name)])
              (match host_sid m with Some h => VStr h | None => VNone end) None]
      else []) ++
     [Emit "joined" (joined (upper r) (host_online m)) (VStr sid) None]).
Proof.
  intros Hr Hm Hrole name role. subst name role. run_handler. rewrite Hr. simpl.
  assert (Hin : d_in (upper r) (rooms s) = true) by (apply d_in_get; eauto).
  rewrite Hin. simpl. rewrite Hm. simpl. rewrite Hrole. simpl.
  rewrite d_get_set_eq. simpl. unfold host_online.
  destruct (opt_truthy (host_sid m)) eqn:Ho; simpl;
    rewrite d_get_set_eq; simpl; by rewrite Ho.
Qed.

Lemma host_state_raise sid data s :
  (∀ r, data_get data "room" (VStr "") ≠ VStr r) →
  host_state sid data s = (Raise AttributeError, s, []).
Proof.
  intros Hr. run_handler.
  destruct (data_get data "room" (VStr "")); try done. by destruct (Hr s0).
Qed.

Lemma host_state_accept sid data r m s :
  data_get data "room" (VStr "") = VStr r →
  d_get (upper r) (rooms s) = Some m → host_sid m = Some sid →
  host_state sid data s
  = (Return tt,
     set_rooms (d_set (upper r) (set_host_state data m) (rooms s)) s,
     [Emit "host-state" (VDict data) (VStr (upper r)) None]).
Proof.
  intros Hr Hm Hh. run_handler. rewrite Hr. simpl. rewrite Hm, Hh.
  rewrite String.eqb_refl. simpl. by rewrite Hm.
Qed.

Lemma host_state_reject sid data r s :
  data_get data "room" (VStr "") = VStr r →
  (d_get (upper r) (rooms s) ≫= host_sid) ≠ Some sid →
  host_state sid data s = (Return tt, s, []).
Proof.
  intros Hr Hh. run_handler. rewrite Hr. simpl.
  destruct (d_get (upper r) (rooms s)) as [m|]; simpl in *; [|done].
  destruct (host_sid m) as [h|]; [|done].
  destruct (String.eqb_spec h sid); [congruence | done].
Qed.

(** the signaling handlers and the chat handler never change the state *)
Lemma relay_state e s :
  match e with
  | WebrtcOffer _ _ | WebrtcAnswer _ _ | WebrtcIce _ _ | ChatMessage _ _ => True
  | _ => False
  end → exec e s = s.
Proof.
  destruct e; try done; intros _; run_handler.
  - destruct (data_get data "room" (VStr "")); try done.
    simpl. by destruct (truthy (data_get1 data "to")).
  - by destruct (truthy (data_get1 data "to")).
  - by destruct (truthy (data_get1 data "to")).
  - by destruct (data_get data "room" (VStr "")).
Qed.

(** ** Every reachable state satisfies the invariant *)

Lemma room_field_cases (data : dict value) :
  (∃ r, data_get data "room" (VStr "") = VStr r) ∨
  (∀ r, data_get data "room" (VStr "") ≠ VStr r).
Proof. destruct (data_get data "room" (VStr "")); eauto. Qed.

Lemma exec_inv e s : inv s → inv (exec e s).
Proof.
  intros Hinv. destruct e as [sid|sid|rnd now|sid data rnd now|sid data
    |sid data|sid data|sid data|sid data|sid data];
    try (by rewrite relay_state).
  - by apply inv_connect.
  - unfold exec. rewrite handle_disconnect_run. by apply inv_disconnect.
  - apply (inv_create s (pick_code 5 rnd 0 (rooms s) "") now Hinv).
    by apply upper_pick_code.
  - apply (inv_create s (gen_room_code ROOM_CODE_LEN rnd 0) now Hinv).
    apply upper_gen_room_code.
  - unfold exec, handle.
    destruct (room_field_cases data) as [[r Hr]|Hr];
      [| by rewrite join_room_raise].
    destruct (d_get (upper r) (rooms s)) as [m|] eqn:Hm;
      [| by rewrite (join_room_unknown sid data r)].
    destruct (is_str (data_get data "role" (VStr "viewer")) "host") eqn:Hrole.
    + rewrite (join_room_host sid data r m) by done.
      set (m1 := add_participant sid _ _ m).
      apply (inv_join s _ (upper r) m (set_host (Some sid) m1) sid
               (PInfo sid (data_get data "name" (VStr "Guest"))
                  (data_get data "role" (VStr "viewer"))));
        [exact Hinv | exact Hm | reflexivity | by right | done..].
    + rewrite (join_room_viewer sid data r m) by done.
      set (m1 := add_participant sid _ _ m).
      apply (inv_join s _ (upper r) m m1 sid
               (PInfo sid (data_get data "name" (VStr "Guest"))
                  (data_get data "role" (VStr "viewer"))));
        [exact Hinv | exact Hm | reflexivity | by left | done..].
  - unfold exec, handle.
    destruct (room_field_cases data) as [[r Hr]|Hr];
      [| by rewrite host_state_raise].
    destruct (decide ((d_get (upper r) (rooms s) ≫= host_sid) = Some sid))
      as [Hh|Hh]; [| by rewrite (host_state_reject sid data r)].
    destruct (d_get (upper r) (rooms s)) as [m|] eqn:Hm; [|done].
    simpl in Hh. rewrite (host_state_accept sid data r m) by done.
    by apply (inv_same_members s (upper r) m).
Qed.

Lemma reachable_inv s : reachable s → inv s.
Proof. induction 1 as [|e s _ IH]; [apply inv_init | by apply exec_inv]. Qed.

Lemma reachable_run evs s : reachable s → reachable (run evs s).
Proof.
  revert s. induction evs as [|e evs IH]; intros s Hs; simpl; [done|].
  apply IH. by constructor.
Qed.

(** ** Facts about the concrete run *)

Lemma demo_reachable : reachable demo.
Proof. apply reachable_run, reach_init. Qed.

Lemma demo_room : d_get "ABC123" (rooms demo) = Some demo_meta.
Proof. vm_compute. reflexivity. Qed.

(** sending to a connected session whose id is not a room code reaches
    that session and nobody else *)
Lemma members_session s t :
  inv s → t ∈ sessions s → d_in t (rooms s) = false → members s t = {[t]}.
Proof.
  intros Hinv Ht Hroom. apply set_eq. intros x. rewrite elem_of_singleton. split.
  - intros Hx. destruct (inv_group s Hinv t x Hx) as [->|Hin]; [done | congruence].
  - intros ->. by apply (inv_self s Hinv).
Qed.

Lemma receivers_singleton s e : receivers s [e] = recipients s e.
Proof. unfold receivers. simpl. by rewrite union_empty_r_L. Qed.

(** ** Claims *)

(** C10: in every reachable state, a room whose [host_sid] is set has that
    session among the keys of its [participants]. *)
Theorem host_sid_is_participant s code m h :
  reachable s → d_get code (rooms s) = Some m → host_sid m = Some h →
  d_in h (participants m) = true.
Proof. intros Hs%reachable_inv. apply (inv_host s Hs). Qed.

Lemma host_sid_is_participant_witness :
  reachable demo ∧ d_get "ABC123" (rooms demo) = Some demo_meta ∧
  host_sid demo_meta = Some "H" ∧ d_in "H" (participants demo_meta) = true.
Proof.
  split_and!; [apply demo_reachable | apply demo_room | reflexivity |].
  apply (host_sid_is_participant demo "ABC123" demo_meta "H");
    [apply demo_reachable | apply demo_room | reflexivity].
Defined.

Lemma exec_keys e s : d_keys (rooms s) ⊆ d_keys (rooms (exec e s)).
Proof.
  destruct e as [sid|sid|rnd now|sid data rnd now|sid data
    |sid data|sid data|sid data|sid data|sid data];
    try (by rewrite relay_state).
  - done.
  - unfold exec. rewrite handle_disconnect_run. simpl.
    by rewrite disconnect_loop_keys.
  - apply d_keys_set_incl.
  - apply d_keys_set_incl.
  - unfold exec, handle.
    destruct (room_field_cases data) as [[r Hr]|Hr];
      [| by rewrite join_room_raise].
    destruct (d_get (upper r) (rooms s)) as [m|] eqn:Hm;
      [| by rewrite (join_room_unknown sid data r)].
    destruct (is_str (data_get data "role" (VStr "viewer")) "host") eqn:Hrole.
    + rewrite (join_room_host sid data r m) by done. apply d_keys_set_incl.
    + rewrite (join_room_viewer sid data r m) by done. apply d_keys_set_incl.
  - unfold exec, handle.
    destruct (room_field_cases data) as [[r Hr]|Hr];
      [| by rewrite host_state_raise].
    destruct (decide ((d_get (upper r) (rooms s) ≫= host_sid) = Some sid))
      as [Hh|Hh]; [| by rewrite (host_state_reject sid data r)].
    destruct (d_get (upper r) (rooms s)) as [m|] eqn:Hm; [|done].
    simpl in Hh. rewrite (host_state_accept sid data r m) by done.
    apply d_keys_set_incl.
Qed.

(** C9: no event removes a key of [rooms]: the keys before a handler runs
    are keys afterwards, also along any sequence of events; [disconnect]
    leaves the key set as it is, so a room emptied by it stays. *)
Theorem room_keys_never_removed :
  (∀ e s, d_keys (rooms s) ⊆ d_keys (rooms (exec e s))) ∧
  (∀ evs s, d_keys (rooms s) ⊆ d_keys (rooms (run evs s))) ∧
  (∀ sid s, d_keys (rooms (st_of (disconnect sid s))) = d_keys (rooms s)) ∧
  (∀ sid s, d_keys (rooms (exec (Disconnect sid) s)) = d_keys (rooms s)).
Proof.
  split_and!.
  - apply exec_keys.
  - intros evs. induction evs as [|e evs IH]; intros s; simpl; [done|].
    trans (d_keys (rooms (exec e s))); [apply exec_keys | apply IH].
  - intros sid s. rewrite disconnect_run. simpl. apply disconnect_loop_keys.
  - intros sid s. unfold exec. rewrite handle_disconnect_run. simpl.
    apply disconnect_loop_keys.
Qed.

(** a room with no participant and no host after a disconnect is still there *)
Example empty_room_kept :
  let s := exec (Disconnect "V") (exec (Disconnect "H") demo) in
  d_get "ABC123" (rooms s) = Some (fresh_meta 7%Z).
Proof. vm_compute. reflexivity. Qed.

(** C4: a join request whose room code (upper-cased by the handler) is not
    a key of [rooms] returns normally, leaves the whole state as it was and
    emits one [join-error] addressed to the requesting session, which reaches
    that session alone. *)
Theorem join_room_unknown_code s sid data r :
  data_get data "room" (VStr "") = VStr r →
  d_in (upper r) (rooms s) = false →
  let err := Emit "join-error" (VDict [("error", VStr "room-not-found")])
               (VStr sid) None in
  join_room sid data s = (Return tt, s, [err]) ∧
  exec (JoinRoom sid data) s = s ∧
  (reachable s → sid ∈ sessions s → d_in sid (rooms s) = false →
   receivers s (out_of (join_room sid data s)) = {[sid]}).
Proof.
  intros Hr Hin%d_in_false err.
  assert (Hrun := join_room_unknown sid data r s Hr Hin). split_and!.
  - exact Hrun.
  - unfold exec, handle. by rewrite Hrun.
  - intros Hs%reachable_inv Hsid Hnot. rewrite Hrun. unfold out_of. simpl.
    rewrite receivers_singleton. by apply members_session.
Qed.

Lemma join_room_unknown_code_witness :
  join_room "V" [("room", VStr "zzz999")] demo
  = (Return tt, demo,
     [Emit "join-error" (VDict [("error", VStr "room-not-found")]) (VStr "V") None]) ∧
  receivers demo (out_of (join_room "V" [("room", VStr "zzz999")] demo)) = {["V"]}.
Proof.
  destruct (join_room_unknown_code demo "V" [("room", VStr "zzz999")] "zzz999")
    as (Hrun & _ & Hrcv); [reflexivity | vm_compute; reflexivity |].
  split; [exact Hrun |].
  apply Hrcv; [apply demo_reachable | | vm_compute; reflexivity].
  vm_compute. reflexivity.
Defined.

(** every participant of a room is a member of the room's group *)
Lemma participants_in_group s room m p :
  inv s → d_get room (rooms s) = Some m → d_in p (participants m) = true →
  p ∈ members s room.
Proof. intros Hinv. apply (inv_part s Hinv). Qed.

Lemma truthy_target t : t ≠ "" → truthy (VStr t) = true.
Proof. intros Ht. simpl. by destruct (String.eqb_spec t ""). Qed.

(** C5, as amended: for an offer whose room field is absent or a string,
    the following holds.  The offer never changes the state.  With a target
    session named, one event is emitted, addressed to the target; the target being a
    connected session whose id is not a room code, it reaches the target
    and no other session.  With no target, one event is emitted to the named
    room with the sender skipped: it reaches every participant of that room
    other than the sender and never the sender. *)
Theorem webrtc_offer_routing s sid data r :
  reachable s →
  data_get data "room" (VStr "") = VStr r →
  let out := out_of (webrtc_offer sid data s) in
  let payload := VDict [("from", VStr sid); ("offer", data_get1 data "offer")] in
  st_of (webrtc_offer sid data s) = s ∧
  (∀ t, data_get1 data "to" = VStr t → t ≠ "" →
     out = [Emit "webrtc_offer" payload (VStr t) None] ∧
     (t ∈ sessions s → d_in t (rooms s) = false → receivers s out = {[t]})) ∧
  (truthy (data_get1 data "to") = false →
     out = [Emit "webrtc_offer" payload (VStr (upper r)) (Some sid)] ∧
     receivers s out = members s (upper r) ∖ {[sid]} ∧
     (sid ∉ receivers s out) ∧
     (∀ m p, d_get (upper r) (rooms s) = Some m →
        d_in p (participants m) = true → p ≠ sid → p ∈ receivers s out)).
Proof.
  intros Hs%reachable_inv Hr out payload. subst out payload.
  unfold webrtc_offer, py_upper. rewrite Hr.
  unfold mbind, M_bind, bind, ret, sio_emit, st_of, out_of. simpl.
  split_and!.
  - by destruct (truthy (data_get1 data "to")).
  - intros t Ht Hne. rewrite Ht, (truthy_target t Hne). simpl.
    split; [done|]. intros Hin Hroom.
    rewrite receivers_singleton. by apply members_session.
  - intros Hto. rewrite Hto. simpl. rewrite receivers_singleton.
    unfold recipients. simpl. split_and!; [done | done | |].
    { intros [_ Hn]%elem_of_difference. by apply Hn, elem_of_singleton. }
    intros m p Hm Hp Hne. apply elem_of_difference. split.
    + by apply (participants_in_group s (upper r) m).
    + by intros ?%elem_of_singleton.
Qed.

Lemma webrtc_offer_routing_witness :
  receivers demo
    (out_of (webrtc_offer "H" [("room", VStr "ABC123"); ("to", VStr "V")] demo))
  = {["V"]} ∧
  receivers demo (out_of (webrtc_offer "V" [("room", VStr "ABC123")] demo))
  = members demo "ABC123" ∖ {["V"]}.
Proof.
  split.
  - destruct (webrtc_offer_routing demo "H"
                [("room", VStr "ABC123"); ("to", VStr "V")] "ABC123")
      as (_ & Hto & _); [apply demo_reachable | reflexivity |].
    destruct (Hto "V") as [_ Hrcv]; [reflexivity | discriminate |].
    apply Hrcv; vm_compute; reflexivity.
  - destruct (webrtc_offer_routing demo "V" [("room", VStr "ABC123")] "ABC123")
      as (_ & _ & Hroom); [apply demo_reachable | reflexivity |].
    destruct Hroom as (_ & Hrcv & _); [reflexivity | exact Hrcv].
Defined.

(** C5, as stated, fails: the handler upper-cases the room field before it
    looks at the target, so an offer that names a connected target session
    but carries [null] as room raises and reaches nobody. *)
Lemma webrtc_offer_routing_counterexample :
  ¬ (∀ s sid data t,
       reachable s → data_get1 data "to" = VStr t → t ≠ "" →
       t ∈ sessions s → d_in t (rooms s) = false →
       receivers s (out_of (webrtc_offer sid data s)) = {[t]}).
Proof.
  intros Hall.
  specialize (Hall demo "H" [("room", VNone); ("to", VStr "V"); ("offer", VStr "o")] "V").
  assert (Hin : "V" ∈ receivers demo
            (out_of (webrtc_offer "H"
               [("room", VNone); ("to", VStr "V"); ("offer", VStr "o")] demo))).
  { rewrite Hall; [by apply elem_of_singleton | apply demo_reachable | reflexivity
                  | discriminate | vm_compute; reflexivity | reflexivity]. }
  revert Hin. apply not_elem_of_empty.
Qed.

(** C7: a chat message never changes the state and is emitted once, to the
    named room and with no session skipped: the one event reaches every
    member of the room's group, hence every participant of the room, the
    sender included. *)
Theorem chat_message_routing s sid data r :
  reachable s →
  data_get data "room" (VStr "") = VStr r →
  let e := Emit "chat-message"
             (VDict [("from", VStr sid); ("name", data_get1 data "name");
                     ("text", data_get1 data "text")])
             (VStr (upper r)) None in
  chat_message sid data s = (Return tt, s, [e]) ∧
  recipients s e = members s (upper r) ∧
  (∀ m p, d_get (upper r) (rooms s) = Some m →
     d_in p (participants m) = true → p ∈ recipients s e) ∧
  (∀ m, d_get (upper r) (rooms s) = Some m →
     d_in sid (participants m) = true → sid ∈ recipients s e).
Proof.
  intros Hs%reachable_inv Hr e. subst e.
  unfold chat_message, py_upper. rewrite Hr. split_and!; [done | done | |].
  - intros m p Hm Hp. by apply (participants_in_group s (upper r) m).
  - intros m Hm Hp. by apply (participants_in_group s (upper r) m).
Qed.

Lemma chat_message_routing_witness :
  let data := [("room", VStr "abc123"); ("name", VStr "Vera"); ("text", VStr "hi")] in
  let e := Emit "chat-message"
             (VDict [("from", VStr "V"); ("name", VStr "Vera"); ("text", VStr "hi")])
             (VStr "ABC123") None in
  chat_message "V" data demo = (Return tt, demo, [e]) ∧
  "H" ∈ recipients demo e ∧ "V" ∈ recipients demo e.
Proof.
  intros data e.
  destruct (chat_message_routing demo "V" data "abc123")
    as (Hrun & _ & Hall & Hself); [apply demo_reachable | reflexivity |].
  split_and!.
  - exact Hrun.
  - apply (Hall demo_meta "H"); [apply demo_room | reflexivity].
  - apply (Hself demo_meta); [apply demo_room | reflexivity].
Defined.

(** C8: an answer never changes the state.  With a target session named it
    is emitted once, addressed to the target, and (the target being a
    connected session whose id is not a room code) reaches the target
    alone; with no target nothing at all is emitted and the handler returns
    normally. *)
Theorem webrtc_answer_routing s sid data :
  let payload := VDict [("from", VStr sid); ("answer", data_get1 data "answer")] in
  (∀ t, data_get1 data "to" = VStr t → t ≠ "" →
     webrtc_answer sid data s
     = (Return tt, s, [Emit "webrtc_answer" payload (VStr t) None]) ∧
     (reachable s → t ∈ sessions s → d_in t (rooms s) = false →
      receivers s (out_of (webrtc_answer sid data s)) = {[t]})) ∧
  (truthy (data_get1 data "to") = false →
     webrtc_answer sid data s = (Return tt, s, [])).
Proof.
  intros payload. subst payload. unfold webrtc_answer, out_of. split.
  - intros t Ht Hne. rewrite Ht, (truthy_target t Hne). split; [done|].
    intros Hs%reachable_inv Hin Hroom. simpl.
    rewrite receivers_singleton. by apply members_session.
  - by intros ->.
Qed.

Lemma webrtc_answer_routing_witness :
  receivers demo (out_of (webrtc_answer "V" [("to", VStr "H")] demo)) = {["H"]} ∧
  webrtc_answer "V" [("answer", VStr "sdp")] demo = (Return tt, demo, []).
Proof.
  destruct (webrtc_answer_routing demo "V" [("to", VStr "H")]) as [Hto _].
  destruct (webrtc_answer_routing demo "V" [("answer", VStr "sdp")]) as [_ Hno].
  split.
  - destruct (Hto "H") as [_ Hrcv]; [reflexivity | discriminate |].
    apply Hrcv; [apply demo_reachable | vm_compute; reflexivity..].
  - apply Hno. reflexivity.
Defined.

(** C3: a host-status update is accepted exactly when the sender is the
    [host_sid] of the named room.  Then the payload is stored as the room's
    [host_state] and emitted once to the room with no session skipped, so
    that it reaches every participant and the sender.  Otherwise (another
    sender, no host, unknown room) the handler returns normally with the
    state as it was and nothing emitted. *)
Theorem host_state_only_from_host s sid data r :
  reachable s →
  data_get data "room" (VStr "") = VStr r →
  let room := upper r in
  (∀ m, d_get room (rooms s) = Some m → host_sid m = Some sid →
     let e := Emit "host-state" (VDict data) (VStr room) None in
     host_state sid data s
     = (Return tt, set_rooms (d_set room (set_host_state data m) (rooms s)) s, [e]) ∧
     (d_get room (rooms (st_of (host_state sid data s))) ≫= m_host_state) = Some data ∧
     (∀ p, d_in p (participants m) = true → p ∈ recipients s e) ∧
     sid ∈ recipients s e) ∧
  ((d_get room (rooms s) ≫= host_sid) ≠ Some sid →
     host_state sid data s = (Return tt, s, [])) ∧
  (out_of (host_state sid data s) ≠ [] ↔
   (d_get room (rooms s) ≫= host_sid) = Some sid).
Proof.
  intros Hs%reachable_inv Hr room. subst room. split_and!.
  - intros m Hm Hh e. subst e.
    rewrite (host_state_accept sid data r m s Hr Hm Hh). unfold st_of. simpl.
    split_and!.
    + done.
    + by rewrite d_get_set_eq.
    + intros p Hp. by apply (participants_in_group s (upper r) m).
    + apply (participants_in_group s (upper r) m); [done..|].
      by apply (inv_host s Hs (upper r)).
  - intros Hh. by apply (host_state_reject sid data r).
  - destruct (decide ((d_get (upper r) (rooms s) ≫= host_sid) = Some sid))
      as [Hh|Hh].
    + split; [done | intros _].
      destruct (d_get (upper r) (rooms s)) as [m|] eqn:Hm; [|done].
      simpl in Hh. by rewrite (host_state_accept sid data r m s Hr Hm Hh).
    + rewrite (host_state_reject sid data r s Hr Hh). by split.
Qed.

Lemma host_state_only_from_host_witness :
  let data := [("room", VStr "abc123"); ("is_sharing", VBool true)] in
  (d_get "ABC123" (rooms (st_of (host_state "H" data demo))) ≫= m_host_state)
  = Some data ∧
  host_state "V" data demo = (Return tt, demo, []).
Proof.
  intros data.
  destruct (host_state_only_from_host demo "H" data "abc123")
    as (Hacc & _ & _); [apply demo_reachable | reflexivity |].
  destruct (host_state_only_from_host demo "V" data "abc123")
    as (_ & Hrej & _); [apply demo_reachable | reflexivity |].
  split.
  - destruct (Hacc demo_meta) as (_ & Hst & _); [apply demo_room | reflexivity |].
    exact Hst.
  - apply Hrej. vm_compute. discriminate.
Defined.

(** C2: when a session that is a participant of a room disconnects, its
    entry is removed from the room's participants.  If it was the room's
    host, [host_sid] becomes [None], the room snapshot reports the host
    offline, and exactly one [host-left] event is emitted to that room,
    addressed to all remaining participants.  If it was not the host,
    [host_sid] keeps its value and no [host-left] event is emitted to that
    room. *)
Theorem disconnect_clears_host s sid code m :
  reachable s →
  d_get code (rooms s) = Some m →
  d_in sid (participants m) = true →
  let s' := st_of (disconnect sid s) in
  let out := out_of (disconnect sid s) in
  ∃ m', d_get code (rooms s') = Some m' ∧
    participants m' = d_pop sid (participants m) ∧
    d_in sid (participants m') = false ∧
    (host_sid m = Some sid →
       let e := Emit "host-left" (VDict [("msg", VStr "host disconnected")])
                  (VStr code) None in
       host_sid m' = None ∧
       get_room code s' = Found code (d_values (participants m')) false ∧
       e ∈ out ∧ count_event "host-left" code out = 1%nat ∧
       (∀ p, d_in p (participants m') = true → p ∈ recipients s e)) ∧
    (host_sid m ≠ Some sid →
       host_sid m' = host_sid m ∧ count_event "host-left" code out = 0%nat).
Proof.
  intros Hs%reachable_inv Hm Hin s' out. subst s' out.
  rewrite disconnect_run. unfold st_of, out_of. simpl.
  exists (disconnect_room sid code m).1.
  pose proof (disconnect_room_participants sid code m) as Hparts.
  pose proof (disconnect_room_host sid code m) as Hhost.
  pose proof (disconnect_loop_count sid (rooms s) "host-left" code m
                (inv_nodup s Hs) Hm) as Hcount.
  rewrite Hin in Hhost. simpl in Hhost.
  assert (Hget : d_get code (disconnect_loop sid (rooms s)).1
                 = Some (disconnect_room sid code m).1)
    by (by rewrite disconnect_loop_get, Hm).
  split_and!.
  - exact Hget.
  - exact Hparts.
  - rewrite Hparts. apply not_true_is_false. by intros [? _]%d_in_pop.
  - intros Hh. set (e := Emit "host-left" _ _ _).
    rewrite bool_decide_eq_true_2 in Hhost by done.
    assert (Hroom : disconnect_room sid code m
              = (set_host None (set_participants (d_pop sid (participants m)) m),
                 [Emit "user-left"
                    (VDict [("sid", VStr sid);
                            ("name", p_name (default (PInfo "" VNone VNone)
                                               (d_get sid (participants m))))])
                    (VStr code) None; e])).
    { unfold disconnect_room. apply d_in_get in Hin as [p Hp]. rewrite Hp.
      simpl. rewrite Hh. by rewrite String.eqb_refl. }
    split_and!.
    + exact Hhost.
    + unfold get_room. simpl.
      rewrite (inv_codes s Hs code) by (apply d_in_get; eauto).
      rewrite Hget. unfold host_online. by rewrite Hhost.
    + assert (He : e ∈ (disconnect_room sid code m).2)
        by (rewrite Hroom; simpl; apply list_elem_of_further, list_elem_of_here).
      clear -He Hm. revert Hm.
      induction (rooms s) as [|[c m0] rs IH]; simpl; [done|].
      destruct (disconnect_room sid c m0) as [m1 o1] eqn:Hr1.
      destruct (disconnect_loop sid rs) as [rs' o']. simpl in *.
      destruct (String.eqb_spec code c) as [->|Hne].
      * intros [= ->]. apply elem_of_app. left. by rewrite Hr1 in He.
      * intros Hm. apply elem_of_app. right. by apply IH.
    + rewrite Hcount, Hroom. simpl. unfold count_event. simpl.
      unfold is_event. simpl. by rewrite String.eqb_refl.
    + intros p Hp. rewrite Hparts in Hp. apply d_in_pop in Hp as [_ Hp].
      by apply (participants_in_group s code m).
  - intros Hh. rewrite bool_decide_eq_false_2 in Hhost by done.
    split; [exact Hhost|]. rewrite Hcount.
    unfold disconnect_room. apply d_in_get in Hin as [p Hp]. rewrite Hp. simpl.
    destruct (host_sid m) as [h|]; [|done].
    destruct (String.eqb_spec h sid) as [->|Hne]; [done | done].
Qed.

Lemma disconnect_clears_host_witness :
  get_room "ABC123" (st_of (disconnect "H" demo))
  = Found "ABC123" [PInfo "V" (VStr "Vera") (VStr "viewer")] false ∧
  count_event "host-left" "ABC123" (out_of (disconnect "H" demo)) = 1%nat ∧
  count_event "host-left" "ABC123" (out_of (disconnect "V" demo)) = 0%nat.
Proof.
  destruct (disconnect_clears_host demo "H" "ABC123" demo_meta)
    as (m' & _ & Hparts & _ & Hhost & _);
    [apply demo_reachable | apply demo_room | reflexivity |].
  destruct (disconnect_clears_host demo "V" "ABC123" demo_meta)
    as (m'' & _ & _ & _ & _ & Hviewer);
    [apply demo_reachable | apply demo_room | reflexivity |].
  destruct Hhost as (_ & Hview & _ & Hone & _); [reflexivity|].
  destruct Hviewer as (_ & Hzero); [discriminate|].
  rewrite Hparts in Hview. split_and!; [exact Hview | exact Hone | exact Hzero].
Defined.

(** C6: [create_room] generates at most five candidates, one after the
    other, and stops at the first that is not a key of [rooms]; when all
    five are taken it keeps the fifth.  It stores the fresh metadata (no
    host, no participants) under the candidate it ends with, whether or not
    that key was taken, and returns that code: the entry at the returned
    code is the fresh metadata. *)
Theorem create_room_inserts_fresh rnd now s :
  let cand (i : nat) := gen_room_code ROOM_CODE_LEN rnd (i * ROOM_CODE_LEN) in
  ∃ i, (i < 5)%nat ∧
    create_room rnd now s
    = (Return (cand i), set_rooms (d_set (cand i) (fresh_meta now) (rooms s)) s, []) ∧
    (∀ j, (j < i)%nat → d_in (cand j) (rooms s) = true) ∧
    ((i < 4)%nat → d_in (cand i) (rooms s) = false) ∧
    d_get (cand i) (rooms (st_of (create_room rnd now s))) = Some (fresh_meta now) ∧
    host_sid (fresh_meta now) = None ∧ participants (fresh_meta now) = [].
Proof.
  intros cand. rewrite create_room_run.
  destruct (pick_code_spec 5 rnd 0 (rooms s) "") as (i & Hi & Heq & Hbefore & Hfree).
  rewrite Heq by done. simpl Nat.add in *. exists i. unfold st_of. simpl.
  split_and!; [lia | done | exact Hbefore | | apply d_get_set_eq | done | done].
  intros Hlt. apply Hfree. lia.
Qed.

(** all five candidates collide: the room in use is replaced by a fresh one *)
Example create_room_collision :
  let rnd := λ _ : nat, 0%nat in
  let s := run [Connect "H"; HttpCreateRoom rnd 1%Z;
                JoinRoom "H" [("room", VStr "AAAAAA"); ("role", VStr "host")]] init in
  d_get "AAAAAA" (rooms s)
  = Some {| host_sid := Some "H";
            participants := [("H", PInfo "H" (VStr "Guest") (VStr "host"))];
            created_at := 1%Z; m_host_state := None |} ∧
  val_of (create_room rnd 9%Z s) = Return "AAAAAA" ∧
  d_get "AAAAAA" (rooms (st_of (create_room rnd 9%Z s))) = Some (fresh_meta 9%Z).
Proof. vm_compute. done. Qed.

(** On a room field that is an upper-case string, [webrtc_ice] addresses
    its event as [webrtc_offer] does. *)
Lemma webrtc_ice_as_offer_on_codes s sid data r :
  data_get1 data "room" = VStr r → upper r = r →
  (λ e, (e_room e, e_skip e)) <$> out_of (webrtc_ice sid data s)
  = (λ e, (e_room e, e_skip e)) <$> out_of (webrtc_offer sid data s).
Proof.
  intros Hr Hup.
  assert (Hr' : data_get data "room" (VStr "") = VStr r).
  { unfold data_get1, data_get in *. by destruct (d_get "room" data). }
  unfold webrtc_ice, webrtc_offer, py_upper. rewrite Hr, Hr'.
  unfold mbind, M_bind, bind, ret, sio_emit, out_of. simpl.
  rewrite Hup. by destruct (truthy (data_get1 data "to")).
Qed.

(** C1: [webrtc_ice] does not route as [webrtc_offer] does.  It uses the
    room field as received, without [upper()] and without the default: for
    the room written in lower case the offer reaches the other participant
    and the candidate reaches nobody; with no room field the offer reaches
    nobody and the candidate reaches every other connected session. *)
Theorem webrtc_ice_differs_from_offer :
  let data := [("room", VStr "abc123"); ("offer", VStr "o"); ("candidate", VStr "c")] in
  let s := exec (Connect "W") demo in
  receivers s (out_of (webrtc_offer "H" data s)) = {["V"]} ∧
  receivers s (out_of (webrtc_ice "H" data s)) = ∅ ∧
  receivers s (out_of (webrtc_offer "H" [] s)) = ∅ ∧
  receivers s (out_of (webrtc_ice "H" [] s)) = {["V"; "W"]}.
Proof. vm_compute. done. Qed.

(** * Further properties of the handlers *)

(** ** How one event changes one room *)

Lemma exec_room_step e s c :
  room_step e c (d_get c (rooms s)) (d_get c (rooms (exec e s))).
Proof.
  destruct e as [sid|sid|rnd now|sid data rnd now|sid data
    |sid data|sid data|sid data|sid data|sid data];
    try (rewrite relay_state by done; apply step_same).
  - apply step_same.
  - unfold exec. rewrite handle_disconnect_run. simpl.
    rewrite disconnect_loop_get.
    destruct (d_get c (rooms s)) as [m|]; simpl;
      [by apply step_disconnect | apply step_same].
  - unfold exec, handle, mbind, M_bind, bind. rewrite create_room_run.
    unfold st_of. simpl. rewrite d_get_set. case_decide as Hc; [|apply step_same].
    destruct (pick_code_spec 5 rnd 0 (rooms s) "") as (i & _ & Heq & _).
    apply (step_create _ _ _ now rnd (0 + i * ROOM_CODE_LEN)); [done|].
    rewrite <- Hc. by apply Heq.
  - unfold exec, handle. rewrite create_room_client_run. unfold st_of. simpl.
    rewrite d_get_set. case_decide as Hc; [|apply step_same].
    by apply (step_create _ _ _ now rnd 0).
  - unfold exec, handle.
    destruct (room_field_cases data) as [[r Hr]|Hr];
      [| rewrite join_room_raise by done; apply step_same].
    destruct (d_get (upper r) (rooms s)) as [m|] eqn:Hm;
      [| rewrite (join_room_unknown sid data r) by done; apply step_same].
    assert (Hst : rooms (st_of (join_room sid data s))
                  = d_set (upper r) (join_meta sid data m) (rooms s)).
    { unfold join_meta.
      destruct (is_str (data_get data "role" (VStr "viewer")) "host") eqn:Hrole.
      - by rewrite (join_room_host sid data r m).
      - by rewrite (join_room_viewer sid data r m). }
    rewrite Hst, d_get_set. case_decide as Hc; [|apply step_same].
    subst c. rewrite Hm. by apply step_join.
  - unfold exec, handle.
    destruct (room_field_cases data) as [[r Hr]|Hr];
      [| rewrite host_state_raise by done; apply step_same].
    destruct (decide ((d_get (upper r) (rooms s) ≫= host_sid) = Some sid))
      as [Hh|Hh];
      [| rewrite (host_state_reject sid data r) by done; apply step_same].
    destruct (d_get (upper r) (rooms s)) as [m|] eqn:Hm; [|done].
    simpl in Hh. rewrite (host_state_accept sid data r m) by done.
    unfold st_of. simpl. rewrite d_get_set. case_decide as Hc; [|apply step_same].
    subst c. rewrite Hm. by apply (step_host_state _ _ sid).
Qed.

(** ** Shape of room codes *)

Lemma length_string_of_list_ascii l :
  String.length (string_of_list_ascii l) = List.length l.
Proof. induction l as [|a l IH]; simpl; [done | by rewrite IH]. Qed.

Lemma choice_in_ALPHABET r : choice r ∈ ALPHABET.
Proof.
  unfold choice. apply list_elem_of_In, nth_In, Nat.mod_upper_bound.
  discriminate.
Qed.

(** X1: a generated code has exactly the requested number of characters and
    every one of them is a character of [ALPHABET]. *)
Theorem gen_room_code_shape n rnd k :
  String.length (gen_room_code n rnd k) = n ∧
  Forall (λ a, a ∈ ALPHABET) (list_ascii_of_string (gen_room_code n rnd k)).
Proof.
  unfold gen_room_code. split.
  - by rewrite length_string_of_list_ascii, length_map, length_seq.
  - rewrite list_ascii_of_string_of_list_ascii.
    apply Forall_map, Forall_forall. intros i _. apply choice_in_ALPHABET.
Qed.

Lemma gen_is_room_code rnd k : is_room_code (gen_room_code ROOM_CODE_LEN rnd k).
Proof. apply gen_room_code_shape. Qed.

Lemma reachable_room_codes s c :
  reachable s → d_in c (rooms s) = true → is_room_code c.
Proof.
  induction 1 as [|e s _ IH]; [done|].
  intros [m' Hm']%d_in_get.
  pose proof (exec_room_step e s c) as Hstep. rewrite Hm' in Hstep.
  inversion Hstep; subst; try apply gen_is_room_code;
    apply IH, d_in_get;
    match goal with
    | H : Some ?m = d_get c (rooms s) |- _ => exists m; by rewrite <- H
    | H : d_get c (rooms s) = Some ?m |- _ => by exists m
    end.
Qed.

(** X2: every key of [rooms] in a reachable state is a well-formed room
    code: six characters, each an upper-case letter or a digit of
    [ALPHABET]. *)
Theorem registered_codes_well_formed s c :
  reachable s → d_in c (rooms s) = true → is_room_code c.
Proof. apply reachable_room_codes. Qed.

Lemma registered_codes_well_formed_witness :
  reachable demo2 ∧ d_in "DEF456" (rooms demo2) = true ∧ is_room_code "DEF456".
Proof.
  assert (Hr : reachable demo2) by apply reachable_run, demo_reachable.
  split_and!; [exact Hr | reflexivity |].
  apply (registered_codes_well_formed demo2 "DEF456" Hr). reflexivity.
Defined.

(** X3: in a reachable state a join request whose upper-cased room field is
    not a well-formed room code (not [ROOM_CODE_LEN] characters long, or
    with a character outside [ALPHABET]; in particular a request with no
    room field, which stands for the empty string) is answered by
    [join-error] and changes nothing. *)
Theorem join_room_bad_length s sid data r :
  reachable s →
  data_get data "room" (VStr "") = VStr r →
  ¬ is_room_code (upper r) →
  join_room sid data s
  = (Return tt, s,
     [Emit "join-error" (VDict [("error", VStr "room-not-found")]) (VStr sid) None]).
Proof.
  intros Hs Hr Hbad. apply (join_room_unknown sid data r s Hr).
  apply d_in_false. apply not_true_is_false. intros Hin.
  by apply Hbad, (reachable_room_codes s).
Qed.

Lemma join_room_bad_length_witness :
  join_room "V" [("name", VStr "Vera")] demo
  = (Return tt, demo,
     [Emit "join-error" (VDict [("error", VStr "room-not-found")]) (VStr "V") None]) ∧
  join_room "V" [("room", VStr "abc-12")] demo
  = (Return tt, demo,
     [Emit "join-error" (VDict [("error", VStr "room-not-found")]) (VStr "V") None]).
Proof.
  split.
  - apply (join_room_bad_length demo "V" [("name", VStr "Vera")] "");
      [apply demo_reachable | reflexivity | by intros [Hlen _]].
  - apply (join_room_bad_length demo "V" [("room", VStr "abc-12")] "abc-12");
      [apply demo_reachable | reflexivity |].
    intros [_ Hall]. simpl in Hall.
    apply Forall_cons in Hall as [_ Hall]. apply Forall_cons in Hall as [_ Hall].
    apply Forall_cons in Hall as [_ Hall]. apply Forall_cons in Hall as [Hdash _].
    revert Hdash. unfold ALPHABET. simpl.
    rewrite !elem_of_cons, elem_of_nil. intros H.
    repeat (destruct H as [H|H]; [discriminate H|]). done.
Defined.

(** ** Room snapshot *)

Lemma upper_ascii_idemp a : upper_ascii (upper_ascii a) = upper_ascii a.
Proof.
  unfold upper_ascii.
  destruct ((97 <=? nat_of_ascii a)%nat && (nat_of_ascii a <=? 122)%nat) eqn:Hr;
    [| by rewrite Hr].
  apply andb_true_iff in Hr as [Hlo%Nat.leb_le Hhi%Nat.leb_le].
  rewrite nat_ascii_embedding by lia.
  replace ((97 <=? nat_of_ascii a - 32)%nat) with false; [done|].
  symmetry. apply Nat.leb_gt. lia.
Qed.

Lemma upper_idemp r : upper (upper r) = upper r.
Proof. induction r as [|a r IH]; simpl; [done | by rewrite upper_ascii_idemp, IH]. Qed.

(** X4: the room lookup of [get_room] ignores the case of the requested
    code, and in a reachable state a registered room is found under its own
    code and under every spelling that upper-cases to it, with its
    participants in dictionary order and the host flag [bool(host_sid)]. *)
Theorem get_room_by_code s c m :
  reachable s → d_get c (rooms s) = Some m →
  get_room c s = Found c (d_values (participants m)) (host_online m) ∧
  (∀ r, upper r = c →
     get_room r s = Found c (d_values (participants m)) (host_online m)) ∧
  (∀ r, get_room (upper r) s = get_room r s).
Proof.
  intros Hs%reachable_inv Hm.
  assert (Hc : upper c = c) by (apply (inv_codes s Hs), d_in_get; eauto).
  unfold get_room. split_and!.
  - by rewrite Hc, Hm.
  - intros r <-. rewrite upper_idemp in Hc. by rewrite Hm.
  - intros r. by rewrite upper_idemp.
Qed.

Lemma get_room_by_code_witness :
  get_room "aBc123" demo
  = Found "ABC123"
      [PInfo "H" (VStr "Hank") (VStr "host"); PInfo "V" (VStr "Vera") (VStr "viewer")]
      true.
Proof.
  destruct (get_room_by_code demo "ABC123" demo_meta) as (_ & Hany & _);
    [apply demo_reachable | apply demo_room |].
  apply (Hany "aBc123"). reflexivity.
Defined.

(** ** Room creation *)

(** X5: when one of the five candidates of [create_room] is not in use,
    the returned code was not a key before, it becomes the last key, and
    every room that existed keeps its entry: nothing is overwritten. *)
Theorem create_room_new_key rnd now s j :
  (j < 5)%nat →
  d_in (gen_room_code ROOM_CODE_LEN rnd (j * ROOM_CODE_LEN)) (rooms s) = false →
  ∃ c, val_of (create_room rnd now s) = Return c ∧
    d_in c (rooms s) = false ∧
    d_keys (rooms (st_of (create_room rnd now s))) = d_keys (rooms s) ++ [c] ∧
    (∀ c', d_in c' (rooms s) = true →
       d_get c' (rooms (st_of (create_room rnd now s))) = d_get c' (rooms s)).
Proof.
  intros Hj Hfree. rewrite create_room_run. unfold val_of, st_of, set_rooms.
  cbn [fst snd rooms].
  destruct (pick_code_spec 5 rnd 0 (rooms s) "") as (i & Hi & Heq & Hbefore & Hlast).
  rewrite Heq by done. simpl Nat.add in *.
  set (c := gen_room_code ROOM_CODE_LEN rnd (i * ROOM_CODE_LEN)) in *.
  assert (Hc : d_in c (rooms s) = false).
  { destruct (decide (i < 4)%nat) as [Hlt|Hge]; [by apply Hlast|].
    destruct (decide (j < i)%nat) as [Hji|Hji].
    - rewrite (Hbefore j Hji) in Hfree. done.
    - assert (j = i) as -> by lia. done. }
  exists c. split_and!; [done | done | by rewrite d_keys_set, Hc |].
  intros c' Hc'. apply d_get_set_ne. intros ->. congruence.
Qed.

Lemma create_room_new_key_witness :
  val_of (create_room demo2_rnd 8%Z demo) = Return "DEF456" ∧
  d_keys (rooms (st_of (create_room demo2_rnd 8%Z demo))) = ["ABC123"; "DEF456"].
Proof.
  destruct (create_room_new_key demo2_rnd 8%Z demo 0) as (c & Hval & _ & Hkeys & _);
    [lia | reflexivity |].
  assert (Hc : c = "DEF456").
  { assert (Return c = Return "DEF456") as [= ->]; [by rewrite <- Hval | done]. }
  subst c. split; [exact Hval | exact Hkeys].
Defined.

(** X6: [create_room_client] makes no collision check: the one code it
    generates receives the fresh metadata whether or not a room of that code
    exists, every other room keeps its entry, the transport is untouched, and
    the only event is [room-created], addressed to the requester. *)
Theorem create_room_client_overwrites sid data rnd now s :
  let code := gen_room_code ROOM_CODE_LEN rnd 0 in
  let s' := st_of (create_room_client sid data rnd now s) in
  d_get code (rooms s') = Some (fresh_meta now) ∧
  (∀ c, c ≠ code → d_get c (rooms s') = d_get c (rooms s)) ∧
  sessions s' = sessions s ∧ groups s' = groups s ∧
  d_keys (rooms s) ⊆ d_keys (rooms s') ∧
  out_of (create_room_client sid data rnd now s)
  = [Emit "room-created" (VDict [("room", VStr code)]) (VStr sid) None].
Proof.
  intros code s'. subst code s'. rewrite create_room_client_run.
  unfold st_of, out_of. simpl. split_and!; try done.
  - apply d_get_set_eq.
  - intros c Hc. by apply d_get_set_ne.
  - apply d_keys_set_incl.
Qed.

(** the room of H and V is wiped by a client-side creation that draws its code *)
Example create_room_client_collision :
  d_get "ABC123" (rooms (st_of (create_room_client "W" [] demo_rnd 9%Z demo)))
  = Some (fresh_meta 9%Z).
Proof. vm_compute. reflexivity. Qed.

(** ** Joining *)

Lemma d_values_set_new {V} k (v : V) d :
  d_in k d = false → d_values (d_set k v d) = d_values d ++ [v].
Proof.
  unfold d_in, d_values. induction d as [|[k0 v0] d IH]; simpl; [done|].
  destruct (String.eqb_spec k k0); [done|]. intros Hd. simpl. by rewrite IH.
Qed.

Lemma join_room_success sid data r m s :
  data_get data "room" (VStr "") = VStr r →
  d_get (upper r) (rooms s) = Some m →
  val_of (join_room sid data s) = Return tt ∧
  st_of (join_room sid data s) = joined_state sid (upper r) (join_meta sid data m) s.
Proof.
  intros Hr Hm. unfold join_meta.
  destruct (is_str (data_get data "role" (VStr "viewer")) "host") eqn:Hrole.
  - by rewrite (join_room_host sid data r m).
  - by rewrite (join_room_viewer sid data r m).
Qed.

Lemma participants_join_meta sid data m :
  participants (join_meta sid data m)
  = d_set sid (PInfo sid (data_get data "name" (VStr "Guest"))
                 (data_get data "role" (VStr "viewer")))
      (participants m).
Proof.
  unfold join_meta. by destruct (is_str (data_get data "role" (VStr "viewer")) "host").
Qed.

Lemma host_sid_join_meta sid data m :
  host_sid (join_meta sid data m)
  = if is_str (data_get data "role" (VStr "viewer")) "host"
    then Some sid else host_sid m.
Proof.
  unfold join_meta. by destruct (is_str (data_get data "role" (VStr "viewer")) "host").
Qed.

(** X7: a join to an existing room returns normally and stores the entry
    [{sid, name, role}] under the session id, with name "Guest" and role
    "viewer" when the request has none; a new session goes last in the
    participant list; every other participant, the creation time, the host
    status and every other room are untouched; the host becomes the joiner
    exactly when the role is the string "host"; and the session is entered
    into the group of the room. *)
Theorem join_room_registers s sid data r m :
  data_get data "room" (VStr "") = VStr r →
  d_get (upper r) (rooms s) = Some m →
  let s' := st_of (join_room sid data s) in
  let role := data_get data "role" (VStr "viewer") in
  let info := PInfo sid (data_get data "name" (VStr "Guest")) role in
  val_of (join_room sid data s) = Return tt ∧
  ∃ m', d_get (upper r) (rooms s') = Some m' ∧
    d_get sid (participants m') = Some info ∧
    (∀ p, p ≠ sid → d_get p (participants m') = d_get p (participants m)) ∧
    (d_in sid (participants m) = false →
       d_values (participants m') = d_values (participants m) ++ [info]) ∧
    host_sid m' = (if is_str role "host" then Some sid else host_sid m) ∧
    created_at m' = created_at m ∧ m_host_state m' = m_host_state m ∧
    (∀ c, c ≠ upper r → d_get c (rooms s') = d_get c (rooms s)) ∧
    sid ∈ members s' (upper r) ∧ sessions s' = sessions s.
Proof.
  intros Hr Hm s' role info. subst s' role info.
  destruct (join_room_success sid data r m s Hr Hm) as [Hval Hst].
  split; [exact Hval|]. rewrite Hst. exists (join_meta sid data m).
  rewrite participants_join_meta, host_sid_join_meta. simpl. split_and!.
  - apply d_get_set_eq.
  - apply d_get_set_eq.
  - intros p Hp. by apply d_get_set_ne.
  - apply d_values_set_new.
  - done.
  - unfold join_meta. by destruct (is_str _ "host").
  - unfold join_meta. by destruct (is_str _ "host").
  - intros c Hc. by apply d_get_set_ne.
  - unfold members. simpl. rewrite lookup_insert_eq. simpl.
    by apply elem_of_union_l, elem_of_singleton.
  - done.
Qed.

Lemma join_room_registers_witness :
  (d_get "ABC123" (rooms (st_of (join_room "W" [("room", VStr "abc123")] demo)))
     ≫= λ m, d_get "W" (participants m))
  = Some (PInfo "W" (VStr "Guest") (VStr "viewer")).
Proof.
  destruct (join_room_registers demo "W" [("room", VStr "abc123")] "abc123" demo_meta)
    as (_ & m' & Hm' & Hinfo & _); [reflexivity | apply demo_room |].
  change (upper "abc123") with "ABC123" in Hm'.
  rewrite Hm'. exact Hinfo.
Defined.

(** X8: a host-role join to a room that already has another host replaces
    [host_sid]; the previous host keeps its participant entry, and the only
    events are [user-joined] to the room and [joined] to the new host:
    nothing is addressed to the previous host about the change. *)
Theorem join_room_host_takeover s sid data r m h :
  reachable s →
  data_get data "room" (VStr "") = VStr r →
  d_get (upper r) (rooms s) = Some m →
  is_str (data_get data "role" (VStr "viewer")) "host" = true →
  host_sid m = Some h → h ≠ sid →
  let name := data_get data "name" (VStr "Guest") in
  let role := data_get data "role" (VStr "viewer") in
  (∃ m', d_get (upper r) (rooms (st_of (join_room sid data s))) = Some m' ∧
     host_sid m' = Some sid ∧
     d_in h (participants m') = true ∧
     d_get h (participants m') = d_get h (participants m)) ∧
  out_of (join_room sid data s)
  = [Emit "user-joined" (user_joined sid name role) (VStr (upper r)) None;
     Emit "joined" (joined (upper r) true) (VStr sid) None].
Proof.
  intros Hs%reachable_inv Hr Hm Hrole Hh Hne name role. subst name role.
  rewrite (join_room_host sid data r m s Hr Hm Hrole). unfold st_of, out_of. simpl.
  split; [|done].
  eexists. split; [apply d_get_set_eq|]. simpl.
  assert (Hin : d_in h (participants m) = true) by by apply (inv_host s Hs (upper r)).
  split_and!; [done | | by apply d_get_set_ne].
  apply d_in_set. by right.
Qed.

Lemma join_room_host_takeover_witness :
  out_of (join_room "V" [("room", VStr "ABC123"); ("role", VStr "host")] demo)
  = [Emit "user-joined" (user_joined "V" (VStr "Guest") (VStr "host")) (VStr "ABC123") None;
     Emit "joined" (joined "ABC123" true) (VStr "V") None].
Proof.
  destruct (join_room_host_takeover demo "V"
              [("room", VStr "ABC123"); ("role", VStr "host")] "ABC123" demo_meta "H")
    as [_ Hout];
    [apply demo_reachable | reflexivity | apply demo_room | reflexivity
    | reflexivity | discriminate |].
  exact Hout.
Defined.

(** X9: after a host-role join by a session with a non-empty id, a viewer
    joining the same room (in any spelling of the code) causes three events
    in this order: [user-joined] to the room, [viewer-joined] to the host
    carrying the viewer's id and name, and [joined] to the viewer reporting
    the host online. *)
Theorem viewer_join_after_host s h v datah datav rh rv m :
  data_get datah "room" (VStr "") = VStr rh →
  data_get datav "room" (VStr "") = VStr rv →
  upper rv = upper rh →
  d_get (upper rh) (rooms s) = Some m →
  is_str (data_get datah "role" (VStr "viewer")) "host" = true →
  is_str (data_get datav "role" (VStr "viewer")) "host" = false →
  h ≠ "" →
  let name := data_get datav "name" (VStr "Guest") in
  let role := data_get datav "role" (VStr "viewer") in
  out_of (join_room v datav (exec (JoinRoom h datah) s))
  = [Emit "user-joined" (user_joined v name role) (VStr (upper rh)) None;
     Emit "viewer-joined" (VDict [("viewer_sid", VStr v); ("viewer_name", name)])
       (VStr h) None;
     Emit "joined" (joined (upper rh) true) (VStr v) None].
Proof.
  intros Hrh Hrv Hup Hm Hhost Hviewer Hne name role. subst name role.
  unfold exec, handle. rewrite (join_room_host h datah rh m s Hrh Hm Hhost).
  unfold st_of. simpl.
  set (s1 := joined_state h (upper rh) _ s).
  assert (Hm1 : d_get (upper rv) (rooms s1)
                = Some (set_host (Some h)
                          (add_participant h (data_get datah "name" (VStr "Guest"))
                             (data_get datah "role" (VStr "viewer")) m))).
  { rewrite Hup. apply d_get_set_eq. }
  rewrite (join_room_viewer v datav rv _ s1 Hrv Hm1 Hviewer).
  unfold out_of, host_online. simpl. rewrite Hup.
  by destruct (String.eqb_spec h "").
Qed.

Lemma viewer_join_after_host_witness :
  let s := run [Connect "H"; Connect "V"; HttpCreateRoom demo_rnd 7%Z] init in
  out_of (join_room "V" [("room", VStr "abc123")]
            (exec (JoinRoom "H" [("room", VStr "ABC123"); ("role", VStr "host")]) s))
  = [Emit "user-joined" (user_joined "V" (VStr "Guest") (VStr "viewer")) (VStr "ABC123") None;
     Emit "viewer-joined"
       (VDict [("viewer_sid", VStr "V"); ("viewer_name", VStr "Guest")]) (VStr "H") None;
     Emit "joined" (joined "ABC123" true) (VStr "V") None].
Proof.
  intros s.
  apply (viewer_join_after_host s "H" "V"
           [("room", VStr "ABC123"); ("role", VStr "host")]
           [("room", VStr "abc123")] "ABC123" "abc123" (fresh_meta 7%Z));
    [reflexivity | reflexivity | reflexivity | reflexivity | reflexivity
    | reflexivity | discriminate].
Defined.

(** ** Participant entries *)

Lemma d_keys_pop_incl {V} k (d : dict V) x : x ∈ d_keys (d_pop k d) → x ∈ d_keys d.
Proof.
  intros Hx%d_in_keys. apply d_in_keys. by apply d_in_pop in Hx as [_ ?].
Qed.

Lemma NoDup_d_keys_pop {V} k (d : dict V) :
  NoDup (d_keys d) → NoDup (d_keys (d_pop k d)).
Proof.
  induction d as [|[k0 v0] d IH]; simpl; [done|].
  intros [Hnin Hnd]%NoDup_cons.
  destruct (String.eqb k k0); [by apply IH|].
  simpl. apply NoDup_cons. split; [|by apply IH].
  intros Hin. by apply Hnin, (d_keys_pop_incl k).
Qed.

Lemma reachable_well_keyed s c m :
  reachable s → d_get c (rooms s) = Some m → well_keyed m.
Proof.
  intros Hs. revert c m. induction Hs as [|e s _ IH]; [done|].
  intros c m' Hm'.
  pose proof (exec_room_step e s c) as Hstep. rewrite Hm' in Hstep.
  inversion Hstep as [o Ho Ho'|o now rnd k _ _ Ho Ho'|sid m Hm Ho Ho'
                      |sid data m Hm Ho Ho'|sid data m Hm Hh Ho Ho'];
    subst; try symmetry in Ho.
  - by apply (IH c).
  - split; [constructor | done].
  - destruct (IH c m Ho) as [Hnd Hkey].
    unfold well_keyed. rewrite disconnect_room_participants. split.
    + by apply NoDup_d_keys_pop.
    + intros p i Hp. apply Hkey.
      destruct (decide (sid = p)) as [->|Hne];
        [by rewrite d_get_pop_eq in Hp | by rewrite d_get_pop_ne in Hp].
  - destruct (IH c m Ho) as [Hnd Hkey].
    unfold well_keyed. rewrite participants_join_meta. split.
    + by apply NoDup_d_keys_set.
    + intros p i. rewrite d_get_set. case_decide as Hp.
      * intros [= <-]. done.
      * apply Hkey.
  - destruct (IH c m Ho) as [Hnd Hkey]. by split.
Qed.

(** X10: in every reachable state the participants of a room hold at most
    one entry per session, and each entry's ["sid"] field is the session id
    it is stored under. *)
Theorem participants_well_keyed s c m :
  reachable s → d_get c (rooms s) = Some m →
  NoDup (d_keys (participants m)) ∧
  ∀ p i, d_get p (participants m) = Some i → p_sid i = p.
Proof. apply reachable_well_keyed. Qed.

Lemma participants_well_keyed_witness :
  NoDup (d_keys (participants demo_meta)) ∧
  ∀ p i, d_get p (participants demo_meta) = Some i → p_sid i = p.
Proof.
  apply (participants_well_keyed demo "ABC123" demo_meta);
    [apply demo_reachable | apply demo_room].
Defined.

(** ** Disconnecting *)

Lemma disconnect_room_absent sid c m :
  d_in sid (participants m) = false → disconnect_room sid c m = (m, []).
Proof. intros Hin%d_in_false. unfold disconnect_room. by rewrite Hin. Qed.

Lemma disconnect_loop_absent sid rs :
  Forall (λ cm, d_in sid (participants cm.2) = false) rs →
  disconnect_loop sid rs = (rs, []).
Proof.
  induction 1 as [|[c m] rs Hm _ IH]; simpl; [done|].
  simpl in Hm. by rewrite (disconnect_room_absent sid c m Hm), IH.
Qed.

Lemma disconnect_loop_clean sid rs :
  Forall (λ cm, d_in sid (participants cm.2) = false) (disconnect_loop sid rs).1.
Proof.
  induction rs as [|[c m] rs IH]; simpl; [constructor|].
  pose proof (disconnect_room_participants sid c m) as Hp.
  destruct (disconnect_room sid c m) as [m' out].
  destruct (disconnect_loop sid rs) as [rs' out']. simpl in *.
  constructor; [|done]. simpl. rewrite Hp.
  apply not_true_is_false. by intros [? _]%d_in_pop.
Qed.

Lemma d_get_of_elem {V} k (v : V) d :
  NoDup (d_keys d) → (k, v) ∈ d → d_get k d = Some v.
Proof.
  induction d as [|[k0 v0] d IH]; simpl; [by intros _ ?%elem_of_nil|].
  intros [Hnin Hnd]%NoDup_cons [[= -> ->]|Hin]%elem_of_cons.
  - by rewrite String.eqb_refl.
  - destruct (String.eqb_spec k k0) as [->|Hne]; [|by apply IH].
    destruct Hnin. apply list_elem_of_fmap. by exists (k0, v).
Qed.

Lemma disconnect_loop_out sid rs c m e :
  d_get c rs = Some m → e ∈ (disconnect_room sid c m).2 →
  e ∈ (disconnect_loop sid rs).2.
Proof.
  induction rs as [|[c0 m0] rs IH]; simpl; [done|].
  destruct (disconnect_room sid c0 m0) as [m1 o1] eqn:Hr1.
  destruct (disconnect_loop sid rs) as [rs' o']. simpl in *.
  destruct (String.eqb_spec c c0) as [->|Hne].
  - intros [= ->] He. apply elem_of_app. left. by rewrite Hr1 in He.
  - intros Hm He. apply elem_of_app. right. by apply IH.
Qed.

(** X11: [disconnect] of a session that is a participant of no room changes
    nothing and emits nothing. *)
Theorem disconnect_non_participant s sid :
  reachable s →
  (∀ c m, d_get c (rooms s) = Some m → d_in sid (participants m) = false) →
  disconnect sid s = (Return tt, s, []).
Proof.
  intros Hs%reachable_inv Hall. rewrite disconnect_run.
  rewrite disconnect_loop_absent; [by destruct s|].
  apply Forall_forall. intros [c m] Hin. simpl.
  apply (Hall c), d_get_of_elem; [apply (inv_nodup s Hs) | done].
Qed.

Lemma demo_rooms : rooms demo = [("ABC123", demo_meta)].
Proof. vm_compute. reflexivity. Qed.

Lemma disconnect_non_participant_witness :
  disconnect "W" demo = (Return tt, demo, []).
Proof.
  apply (disconnect_non_participant demo "W"); [apply demo_reachable|].
  intros c m. rewrite demo_rooms. simpl.
  destruct (String.eqb c "ABC123"); [|done]. by intros [= <-].
Defined.

(** X12: [disconnect] is idempotent: run again for the same session, in any
    state, it changes nothing and emits nothing. *)
Theorem disconnect_idempotent s sid :
  disconnect sid (st_of (disconnect sid s))
  = (Return tt, st_of (disconnect sid s), []).
Proof.
  rewrite (disconnect_run sid s). unfold st_of. simpl.
  rewrite disconnect_run. simpl.
  by rewrite (disconnect_loop_absent sid _ (disconnect_loop_clean sid (rooms s))).
Qed.

(** X13: [disconnect] removes the session from every room at once.  In a
    reachable state, afterwards the session is a participant of no room; a
    room it was in gets exactly one [user-left] event, carrying the session
    id and the name stored at its join, and a room it was not in gets none
    and keeps its entry; the entries of all other participants are
    untouched. *)
Theorem disconnect_leaves_every_room s sid :
  reachable s →
  let s' := st_of (disconnect sid s) in
  let out := out_of (disconnect sid s) in
  (∀ c m', d_get c (rooms s') = Some m' → d_in sid (participants m') = false) ∧
  (∀ c m, d_get c (rooms s) = Some m →
     ∃ m', d_get c (rooms s') = Some m' ∧
       (∀ p, p ≠ sid → d_get p (participants m') = d_get p (participants m)) ∧
       count_event "user-left" c out
       = (if d_in sid (participants m) then 1 else 0)%nat ∧
       (d_in sid (participants m) = false → m' = m) ∧
       (∀ i, d_get sid (participants m) = Some i →
          Emit "user-left" (VDict [("sid", VStr sid); ("name", p_name i)])
            (VStr c) None ∈ out)).
Proof.
  intros Hs%reachable_inv s' out. subst s' out. rewrite disconnect_run.
  unfold st_of, out_of. simpl. split.
  - intros c m'. rewrite disconnect_loop_get.
    destruct (d_get c (rooms s)) as [m|]; simpl; [|done].
    intros [= <-]. rewrite disconnect_room_participants.
    apply not_true_is_false. by intros [? _]%d_in_pop.
  - intros c m Hm. exists (disconnect_room sid c m).1.
    rewrite disconnect_loop_get, Hm. simpl.
    rewrite (disconnect_loop_count sid (rooms s) "user-left" c m (inv_nodup s Hs) Hm).
    split_and!.
    + done.
    + intros p Hp. rewrite disconnect_room_participants. by apply d_get_pop_ne.
    + unfold disconnect_room, d_in.
      destruct (d_get sid (participants m)) as [i|]; simpl; [|done].
      destruct (host_sid m) as [h|]; simpl; [destruct (String.eqb h sid)|];
        unfold count_event, is_event; simpl; by rewrite String.eqb_refl.
    + intros Hin. by rewrite disconnect_room_absent.
    + intros i Hi. apply (disconnect_loop_out sid (rooms s) c m); [done|].
      unfold disconnect_room. rewrite Hi. simpl.
      destruct (host_sid m) as [h|]; simpl; [destruct (String.eqb h sid)|];
        simpl; apply list_elem_of_here.
Qed.

Lemma disconnect_leaves_every_room_witness :
  count_event "user-left" "ABC123" (out_of (disconnect "V" demo2)) = 1%nat ∧
  count_event "user-left" "DEF456" (out_of (disconnect "V" demo2)) = 1%nat.
Proof.
  destruct (disconnect_leaves_every_room demo2 "V") as [_ Hrooms];
    [apply reachable_run, demo_reachable|].
  split.
  - destruct (Hrooms "ABC123" demo_meta) as (m' & _ & _ & Hc & _);
      [vm_compute; reflexivity | exact Hc].
  - destruct (Hrooms "DEF456"
                {| host_sid := None;
                   participants := [("V", PInfo "V" (VStr "Guest") (VStr "viewer"))];
                   created_at := 8%Z; m_host_state := None |})
      as (m' & _ & _ & Hc & _); [vm_compute; reflexivity | exact Hc].
Defined.

(** ** Relaying *)

(** X14: the offer, answer, candidate and chat handlers never change the
    state, whatever they are sent, and emit at most one event; the payload
    of that event names the real sender under ["from"] (a ["from"] supplied
    by the client is not used) and carries the client's field as received. *)
Theorem relay_handlers_pure sid data s :
  (st_of (webrtc_offer sid data s) = s ∧
   st_of (webrtc_answer sid data s) = s ∧
   st_of (webrtc_ice sid data s) = s ∧
   st_of (chat_message sid data s) = s) ∧
  (∀ e, e ∈ out_of (webrtc_offer sid data s) →
     out_of (webrtc_offer sid data s) = [e] ∧ e_event e = "webrtc_offer" ∧
     e_payload e = VDict [("from", VStr sid); ("offer", data_get1 data "offer")]) ∧
  (∀ e, e ∈ out_of (webrtc_answer sid data s) →
     out_of (webrtc_answer sid data s) = [e] ∧ e_event e = "webrtc_answer" ∧
     e_payload e = VDict [("from", VStr sid); ("answer", data_get1 data "answer")]) ∧
  (∀ e, e ∈ out_of (webrtc_ice sid data s) →
     out_of (webrtc_ice sid data s) = [e] ∧ e_event e = "webrtc_ice" ∧
     e_payload e = VDict [("from", VStr sid); ("candidate", data_get1 data "candidate")]) ∧
  (∀ e, e ∈ out_of (chat_message sid data s) →
     out_of (chat_message sid data s) = [e] ∧ e_event e = "chat-message" ∧
     e_payload e = VDict [("from", VStr sid); ("name", data_get1 data "name");
                          ("text", data_get1 data "text")]).
Proof.
  split_and!.
  - apply (relay_state (WebrtcOffer sid data) s I).
  - apply (relay_state (WebrtcAnswer sid data) s I).
  - apply (relay_state (WebrtcIce sid data) s I).
  - apply (relay_state (ChatMessage sid data) s I).
  - run_handler. destruct (data_get data "room" (VStr "")); simpl;
      try (by intros e ?%elem_of_nil).
    destruct (truthy (data_get1 data "to")); simpl;
      by intros e ->%list_elem_of_singleton.
  - run_handler. destruct (truthy (data_get1 data "to")); simpl;
      [by intros e ->%list_elem_of_singleton | by intros e ?%elem_of_nil].
  - run_handler. destruct (truthy (data_get1 data "to")); simpl;
      by intros e ->%list_elem_of_singleton.
  - run_handler. destruct (data_get data "room" (VStr "")); simpl;
      try (by intros e ?%elem_of_nil).
    by intros e ->%list_elem_of_singleton.
Qed.



(** ** Host status and host assignment *)

(** X16: [host_state] never touches membership: on every request, in every
    state, each room keeps its host, its participants and its creation
    time, the keys of [rooms] and the transport are as before, and an
    accepted update replaces the stored status as a whole (the last one
    wins). *)
Theorem host_state_keeps_membership s sid data :
  let s' := st_of (host_state sid data s) in
  d_keys (rooms s') = d_keys (rooms s) ∧
  sessions s' = sessions s ∧ groups s' = groups s ∧
  (∀ c, (λ m, (host_sid m, participants m, created_at m)) <$> d_get c (rooms s')
        = (λ m, (host_sid m, participants m, created_at m)) <$> d_get c (rooms s)) ∧
  (∀ c m', d_get c (rooms s') = Some m' →
     m_host_state m' = Some data ∨ d_get c (rooms s) = Some m').
Proof.
  intros s'.
  assert (Hsame : s' = s →
    d_keys (rooms s') = d_keys (rooms s) ∧
    sessions s' = sessions s ∧ groups s' = groups s ∧
    (∀ c, (λ m, (host_sid m, participants m, created_at m)) <$> d_get c (rooms s')
          = (λ m, (host_sid m, participants m, created_at m)) <$> d_get c (rooms s)) ∧
    (∀ c m', d_get c (rooms s') = Some m' →
       m_host_state m' = Some data ∨ d_get c (rooms s) = Some m')).
  { intros ->. split_and!; try done. intros c m' Hc. by right. }
  destruct (room_field_cases data) as [[r Hr]|Hr];
    [| apply Hsame; subst s'; by rewrite host_state_raise].
  destruct (decide ((d_get (upper r) (rooms s) ≫= host_sid) = Some sid))
    as [Hh|Hh]; [| apply Hsame; subst s'; by rewrite (host_state_reject sid data r)].
  clear Hsame. subst s'.
  destruct (d_get (upper r) (rooms s)) as [m|] eqn:Hm; [|done].
  simpl in Hh. rewrite (host_state_accept sid data r m) by done.
  unfold st_of. simpl. split_and!; try done.
  - rewrite d_keys_set. by rewrite (proj2 (d_in_get (upper r) (rooms s))) by eauto.
  - intros c. rewrite d_get_set. case_decide as Hc; [|done].
    subst c. by rewrite Hm.
  - intros c m'. rewrite d_get_set. case_decide as Hc; [|by right].
    intros [= <-]. by left.
Qed.

(** X17: the only event that makes a session the host of a room is a join
    by that very session with the role "host": if after an event the host
    of a room is [h] and it was not before, the event is that join. *)
Theorem host_set_only_by_host_join e s c m' h :
  d_get c (rooms (exec e s)) = Some m' →
  host_sid m' = Some h →
  (d_get c (rooms s) ≫= host_sid) ≠ Some h →
  ∃ data, e = JoinRoom h data ∧
    is_str (data_get data "role" (VStr "viewer")) "host" = true.
Proof.
  intros Hm' Hh Hbefore.
  pose proof (exec_room_step e s c) as Hstep. rewrite Hm' in Hstep.
  inversion Hstep as [o Ho Ho'|o now rnd k _ _ Ho Ho'|sid m Hm Ho Ho'
                      |sid data m Hm Ho Ho'|sid data m Hm Hhs Ho Ho'];
    subst; try symmetry in Ho.
  - rewrite Ho' in Hbefore. simpl in Hbefore. done.
  - done.
  - rewrite Ho in Hbefore. simpl in Hbefore.
    rewrite disconnect_room_host in Hh.
    by destruct (d_in sid (participants m) && bool_decide (host_sid m = Some sid)).
  - rewrite Ho in Hbefore. simpl in Hbefore.
    rewrite host_sid_join_meta in Hh.
    destruct (is_str (data_get data "role" (VStr "viewer")) "host") eqn:Hrole;
      [|done].
    injection Hh as ->. by exists data.
  - rewrite Ho in Hbefore. simpl in Hbefore. done.
Qed.

Lemma host_set_only_by_host_join_witness :
  ∃ data, JoinRoom "V" [("room", VStr "ABC123"); ("role", VStr "host")]
          = JoinRoom "V" data ∧
    is_str (data_get data "role" (VStr "viewer")) "host" = true.
Proof.
  apply (host_set_only_by_host_join
           (JoinRoom "V" [("room", VStr "ABC123"); ("role", VStr "host")])
           demo "ABC123"
           (set_host (Some "V")
              (add_participant "V" (VStr "Guest") (VStr "host") demo_meta)) "V");
    [vm_compute; reflexivity | reflexivity | vm_compute; discriminate].
Defined.

(** X18: a room [c] loses its host [h] only by the disconnect of [h], by a
    host-role join of another session to [c], or by a room creation that
    draws the code [c] ([create_room] returning [c], or [create_room_client]
    generating [c]); no viewer join, relay or host status does it, nor a
    join or a creation that concerns another room. *)
Theorem host_lost_only_by e s c m h :
  d_get c (rooms s) = Some m →
  host_sid m = Some h →
  (d_get c (rooms (exec e s)) ≫= host_sid) ≠ Some h →
  e = Disconnect h ∨
  (∃ sid data r, e = JoinRoom sid data ∧ sid ≠ h ∧
     data_get data "room" (VStr "") = VStr r ∧ upper r = c ∧
     is_str (data_get data "role" (VStr "viewer")) "host" = true) ∨
  (∃ rnd now, e = HttpCreateRoom rnd now ∧
     val_of (create_room rnd now s) = Return c) ∨
  (∃ sid data rnd now, e = CreateRoomClient sid data rnd now ∧
     gen_room_code ROOM_CODE_LEN rnd 0 = c).
Proof.
  intros Hm Hh Hafter.
  assert (Hkeep : d_get c (rooms (exec e s)) = Some m → False).
  { intros Heq. rewrite Heq in Hafter. simpl in Hafter. done. }
  destruct e as [sid|sid|rnd now|sid data rnd now|sid data
    |sid data|sid data|sid data|sid data|sid data];
    try (destruct Hkeep; by rewrite relay_state).
  - by destruct Hkeep.
  - left. unfold exec in Hafter. rewrite handle_disconnect_run in Hafter.
    simpl in Hafter. rewrite disconnect_loop_get, Hm in Hafter. simpl in Hafter.
    rewrite disconnect_room_host in Hafter.
    destruct (d_in sid (participants m)); simpl in Hafter; [|done].
    case_bool_decide as Hs; [|done]. congruence.
  - right; right; left. exists rnd, now. split; [done|].
    rewrite create_room_run. unfold val_of. cbn [fst]. f_equal.
    destruct (decide (pick_code 5 rnd 0 (rooms s) "" = c)) as [Hc|Hc]; [done|].
    destruct Hkeep. change (rooms (exec (HttpCreateRoom rnd now) s))
      with (d_set (pick_code 5 rnd 0 (rooms s) "") (fresh_meta now) (rooms s)).
    by rewrite d_get_set_ne.
  - right; right; right. exists sid, data, rnd, now. split; [done|].
    destruct (decide (gen_room_code ROOM_CODE_LEN rnd 0 = c)) as [Hc|Hc]; [done|].
    destruct Hkeep. change (rooms (exec (CreateRoomClient sid data rnd now) s))
      with (d_set (gen_room_code ROOM_CODE_LEN rnd 0) (fresh_meta now) (rooms s)).
    by rewrite d_get_set_ne.
  - unfold exec, handle in Hafter, Hkeep.
    destruct (room_field_cases data) as [[r Hr]|Hr];
      [| destruct Hkeep; by rewrite join_room_raise].
    destruct (d_get (upper r) (rooms s)) as [m0|] eqn:Hm0;
      [| destruct Hkeep; by rewrite (join_room_unknown sid data r)].
    destruct (join_room_success sid data r m0 s Hr Hm0) as [_ Hst].
    rewrite Hst in Hafter, Hkeep. simpl in Hafter, Hkeep.
    destruct (decide (upper r = c)) as [Hc|Hc];
      [| destruct Hkeep; by rewrite d_get_set_ne].
    subst c. rewrite d_get_set_eq in Hafter. simpl in Hafter.
    assert (m0 = m) as -> by congruence.
    rewrite host_sid_join_meta in Hafter.
    destruct (is_str (data_get data "role" (VStr "viewer")) "host") eqn:Hrole;
      [|done].
    right; left. exists sid, data, r. split_and!; [done | congruence | done..].
  - unfold exec, handle in Hafter, Hkeep.
    destruct (room_field_cases data) as [[r Hr]|Hr];
      [| destruct Hkeep; by rewrite host_state_raise].
    destruct (decide ((d_get (upper r) (rooms s) ≫= host_sid) = Some sid))
      as [Hhs|Hhs]; [| destruct Hkeep; by rewrite (host_state_reject sid data r)].
    destruct (d_get (upper r) (rooms s)) as [m0|] eqn:Hm0; [|done].
    simpl in Hhs. rewrite (host_state_accept sid data r m0) in Hafter by done.
    unfold st_of in Hafter. simpl in Hafter. rewrite d_get_set in Hafter.
    case_decide as Hc; [subst c | by rewrite Hm in Hafter].
    simpl in Hafter. congruence.
Qed.

Lemma host_lost_only_by_witness :
  (∃ rnd now, CreateRoomClient "W" [] demo_rnd 9%Z = HttpCreateRoom rnd now ∧
     val_of (create_room rnd now demo) = Return "ABC123") ∨
  (∃ sid data rnd now,
     CreateRoomClient "W" [] demo_rnd 9%Z = CreateRoomClient sid data rnd now ∧
     gen_room_code ROOM_CODE_LEN rnd 0 = "ABC123").
Proof.
  destruct (host_lost_only_by (CreateRoomClient "W" [] demo_rnd 9%Z)
              demo "ABC123" demo_meta "H")
    as [He|[(sid & data & r & He & _)|Hcreate]];
    [apply demo_room | reflexivity | vm_compute; discriminate
    | discriminate He | discriminate He | exact Hcreate].
Defined.

(** X19: a room that exists is still there after any event, and its
    creation time changes only if the event is a room creation. *)
Theorem created_at_stable e s c m :
  d_get c (rooms s) = Some m →
  ∃ m', d_get c (rooms (exec e s)) = Some m' ∧
    (is_create e = false → created_at m' = created_at m).
Proof.
  intros Hm.
  pose proof (exec_room_step e s c) as Hstep. rewrite Hm in Hstep.
  inversion Hstep as [o Ho Ho'|o now rnd k Hc _ Ho Ho'|sid m0 He Ho Ho'
                      |sid data m0 He Ho Ho'|sid data m0 He Hhs Ho Ho'];
    subst.
  - by exists m.
  - eexists. split; [done|]. intros Hn. congruence.
  - eexists. split; [done|]. intros _. apply disconnect_room_fields.
  - eexists. split; [done|]. intros _. unfold join_meta.
    by destruct (is_str _ "host").
  - eexists. split; [done|]. done.
Qed.

Lemma created_at_stable_witness :
  ∃ m', d_get "ABC123" (rooms (exec (Disconnect "H") demo)) = Some m' ∧
    (is_create (Disconnect "H") = false → created_at m' = created_at demo_meta).
Proof. apply (created_at_stable (Disconnect "H") demo "ABC123" demo_meta), demo_room. Defined.

(** ** Compositions *)

(** X20: a viewer joining a room that has no host causes exactly two
    events, [user-joined] to the room and [joined] to the viewer reporting
    the host offline; no [viewer-joined] is sent and the room stays without
    host. *)
Theorem viewer_join_without_host s sid data r m :
  data_get data "room" (VStr "") = VStr r →
  d_get (upper r) (rooms s) = Some m →
  is_str (data_get data "role" (VStr "viewer")) "host" = false →
  host_sid m = None →
  let name := data_get data "name" (VStr "Guest") in
  let role := data_get data "role" (VStr "viewer") in
  out_of (join_room sid data s)
  = [Emit "user-joined" (user_joined sid name role) (VStr (upper r)) None;
     Emit "joined" (joined (upper r) false) (VStr sid) None] ∧
  (d_get (upper r) (rooms (st_of (join_room sid data s))) ≫= host_sid) = None.
Proof.
  intros Hr Hm Hrole Hh name role. subst name role.
  rewrite (join_room_viewer sid data r m s Hr Hm Hrole).
  unfold out_of, st_of, host_online. rewrite Hh. simpl.
  split; [done|]. by rewrite d_get_set_eq.
Qed.

Lemma viewer_join_without_host_witness :
  out_of (join_room "H" [("room", VStr "def456")] demo2)
  = [Emit "user-joined" (user_joined "H" (VStr "Guest") (VStr "viewer")) (VStr "DEF456") None;
     Emit "joined" (joined "DEF456" false) (VStr "H") None].
Proof.
  destruct (viewer_join_without_host demo2 "H" [("room", VStr "def456")] "def456"
              {| host_sid := None;
                 participants := [("V", PInfo "V" (VStr "Guest") (VStr "viewer"))];
                 created_at := 8%Z; m_host_state := None |})
    as [Hout _]; [reflexivity | vm_compute; reflexivity | reflexivity | reflexivity |].
  exact Hout.
Defined.

(** X21: the code returned by [create_room] can be looked up at once:
    [get_room] finds it, under that very code, with no participants and the
    host offline. *)
Theorem create_then_get_room rnd now s :
  ∃ c, val_of (create_room rnd now s) = Return c ∧
    get_room c (st_of (create_room rnd now s)) = Found c [] false.
Proof.
  rewrite create_room_run. unfold val_of, st_of, get_room, set_rooms.
  cbn [fst snd rooms]. eexists. split; [reflexivity|].
  rewrite upper_pick_code by done. by rewrite d_get_set_eq.
Qed.

Lemma d_pop_set_new {V} k (v : V) d : d_in k d = false → d_pop k (d_set k v d) = d.
Proof.
  unfold d_in. induction d as [|[k0 v0] d IH]; simpl.
  - by rewrite String.eqb_refl.
  - destruct (String.eqb_spec k k0) as [->|Hne]; [done|].
    intros Hd. simpl. destruct (String.eqb_spec k k0); [done|]. by rewrite IH.
Qed.

(** X22: joining a room as a viewer and then disconnecting undoes the
    join: in a reachable state, for a session that was not a participant of
    the room, the entry of the room after [join_room] followed by
    [disconnect] is the entry it had before. *)
Theorem join_then_disconnect s sid data r m :
  reachable s →
  data_get data "room" (VStr "") = VStr r →
  d_get (upper r) (rooms s) = Some m →
  d_in sid (participants m) = false →
  is_str (data_get data "role" (VStr "viewer")) "host" = false →
  d_get (upper r) (rooms (st_of (disconnect sid (st_of (join_room sid data s)))))
  = Some m.
Proof.
  intros Hs%reachable_inv Hr Hm Hin Hrole.
  rewrite (join_room_viewer sid data r m s Hr Hm Hrole).
  rewrite disconnect_run. unfold st_of. simpl.
  rewrite disconnect_loop_get, d_get_set_eq. simpl. f_equal.
  unfold disconnect_room. simpl. rewrite d_get_set_eq.
  rewrite (d_pop_set_new sid _ (participants m) Hin).
  assert (Hhost : host_sid m ≠ Some sid).
  { intros Hh. apply (inv_host s Hs (upper r) m sid Hm) in Hh. congruence. }
  destruct m as [h ps t hs]. simpl in *.
  destruct h as [h|]; [|done].
  destruct (String.eqb_spec h sid) as [->|Hne]; [done | done].
Qed.

Lemma join_then_disconnect_witness :
  d_get "ABC123"
    (rooms (st_of (disconnect "W"
                     (st_of (join_room "W" [("room", VStr "abc123")] demo)))))
  = Some demo_meta.
Proof.
  apply (join_then_disconnect demo "W" [("room", VStr "abc123")] "abc123" demo_meta);
    [apply demo_reachable | reflexivity | apply demo_room | reflexivity | reflexivity].
Defined.
